(** * py-exe_bundler: the conversion pipeline of [AppConverterGUI]

    A shallow embedding of [src/py-exe_bundler.py]: the worker
    [convert_app], the provisioner [ensure_dependencies], the relay
    consumer [check_queue], the constructor and the buttons of the
    form, run over an explicit world (file system, relay queue, log
    file, Tk variables) in a small state monad with Python's three
    completions (fall through, [return], [raise]). *)

From stdpp Require Import gmap strings list fin_maps pretty.
From Stdlib Require Import Ascii.

Local Open Scope stdpp_scope.

(** ** Python strings *)

Module PyStr.

Definition dquote : string := String (ascii_of_nat 34) EmptyString.
Definition newline : string := String (ascii_of_nat 10) EmptyString.
Definition backslash : string := String (ascii_of_nat 92) EmptyString.

(** [s.endswith(suf)] *)
Fixpoint endswith (s suf : string) : bool :=
  if String.eqb s suf then true
  else match s with
       | EmptyString => false
       | String _ s' => endswith s' suf
       end.

(** The ASCII part of [str.isspace]. *)
Definition isspace (c : ascii) : bool :=
  let n := nat_of_ascii c in
  ((9 <=? n) && (n <=? 13)) || ((28 <=? n) && (n <=? 32)).

Fixpoint lstrip (s : string) : string :=
  match s with
  | String c s' => if isspace c then lstrip s' else s
  | EmptyString => EmptyString
  end.

Fixpoint rstrip (s : string) : string :=
  match s with
  | EmptyString => EmptyString
  | String c s' =>
      match rstrip s' with
      | EmptyString => if isspace c then EmptyString else String c EmptyString
      | r => String c r
      end
  end.

(** [s.strip()] *)
Definition strip (s : string) : string := rstrip (lstrip s).

(** Truthiness of a string: [bool(s)]. *)
Definition truthy (s : string) : bool :=
  match s with EmptyString => false | _ => true end.

(** Truthiness of a list: [bool(l)]. *)
Definition truthy_list {A : Type} (l : list A) : bool :=
  match l with [] => false | _ => true end.

(** [s in l] *)
Definition mem (s : string) (l : list string) : bool :=
  existsb (String.eqb s) l.

(** Text occurring inside another text. *)
Definition occurs_in (piece text : string) : Prop :=
  ∃ pre post, text = pre +:+ piece +:+ post.

End PyStr.

(** ** [os.path] on path strings

    The functions of [os.path] the program calls, for the platform it
    targets (separators [\] and [/], drive colon).  [join] is given for
    a second argument without drive or root, which is all the program
    passes: directory entries and its own literals. *)

Module OsPath.
Import PyStr.

Definition is_sep (c : ascii) : bool :=
  Ascii.eqb c (ascii_of_nat 92) || Ascii.eqb c (ascii_of_nat 47).
Definition is_colon (c : ascii) : bool := Ascii.eqb c (ascii_of_nat 58).
Definition is_boundary (c : ascii) : bool := is_sep c || is_colon c.

Fixpoint last_char (s : string) : option ascii :=
  match s with
  | EmptyString => None
  | String c EmptyString => Some c
  | String _ s' => last_char s'
  end.

(** [os.path.join(a, b)] *)
Definition join (a b : string) : string :=
  match last_char a with
  | None => b
  | Some c => if is_boundary c then a +:+ b else a +:+ backslash +:+ b
  end.

(** The pieces of a path between separators; a drive colon closes the
    piece it ends. *)
Fixpoint components (p : string) : list string :=
  match p with
  | EmptyString => [EmptyString]
  | String c p' =>
      if is_sep c then EmptyString :: components p'
      else if is_colon c then String c EmptyString :: components p'
      else match components p' with
           | h :: t => String c h :: t
           | [] => [String c EmptyString]
           end
  end.

(** [os.path.basename(p)] *)
Definition basename (p : string) : string :=
  List.last (components p) EmptyString.

(** The file-system key of a path: its non-empty pieces.  Two spellings
    of one directory (with or without a trailing separator) share it. *)
Definition resolve (p : string) : list string :=
  List.filter truthy (components p).

(** A name with no separator and no colon, as directory entries are. *)
Fixpoint plain (n : string) : bool :=
  match n with
  | EmptyString => true
  | String c n' => negb (is_boundary c) && plain n'
  end.

End OsPath.

(** ** The file system the program runs against

    A flat map from resolved paths to nodes.  A directory carries its
    listing in the order [os.listdir] reports it.  Operations fail the
    way the operating system does; [denied] names the paths on which a
    write or a deletion is refused (a locked or read-only file). *)

Inductive outcome (A : Type) : Type :=
  | Ok (a : A)
  | Fail (msg : string).
Arguments Ok {A} a.
Arguments Fail {A} msg.

Module Fs.
Import PyStr OsPath.

Inductive node : Type :=
  | File (content : string)
  | Dir (entries : list string).

Abbreviation t := (gmap (list string) node).

Definition split_last (k : list string) : option (list string * string) :=
  match k with
  | [] => None
  | _ => Some (removelast k, List.last k EmptyString)
  end.

Definition add_entry (parent : list string) (name : string) (fs : t) : t :=
  match fs !! parent with
  | Some (Dir es) =>
      <[parent := Dir (if mem name es then es else es ++ [name])]> fs
  | _ => fs
  end.

Definition del_entry (parent : list string) (name : string) (fs : t) : t :=
  match fs !! parent with
  | Some (Dir es) =>
      <[parent := Dir (List.filter (λ e, negb (String.eqb e name)) es)]> fs
  | _ => fs
  end.

Definition unlink (k : list string) (fs : t) : t :=
  match split_last k with
  | Some (parent, name) => del_entry parent name fs
  | None => fs
  end.

(** [os.path.exists(p)] *)
Definition exists_ (fs : t) (p : string) : bool :=
  match fs !! resolve p with Some _ => true | None => false end.

(** [os.listdir(p)] *)
Definition listdir (fs : t) (p : string) : outcome (list string) :=
  match fs !! resolve p with
  | Some (Dir es) => Ok es
  | Some (File _) => Fail ("NotADirectoryError: " +:+ p)
  | None => Fail ("FileNotFoundError: " +:+ p)
  end.

(** [open(p, "w")], one [write] of the whole text, and the close. *)
Definition write_file (denied : string → bool) (fs : t) (p content : string)
  : outcome t :=
  if denied p then Fail ("PermissionError: " +:+ p)
  else match split_last (resolve p) with
       | None => Fail ("IsADirectoryError: " +:+ p)
       | Some (parent, name) =>
           match fs !! parent with
           | Some (Dir _) =>
               match fs !! resolve p with
               | Some (Dir _) => Fail ("IsADirectoryError: " +:+ p)
               | _ => Ok (<[resolve p := File content]> (add_entry parent name fs))
               end
           | _ => Fail ("FileNotFoundError: " +:+ p)
           end
       end.

(** [os.remove(p)] *)
Definition remove (denied : string → bool) (fs : t) (p : string) : outcome t :=
  if denied p then Fail ("PermissionError: " +:+ p)
  else match fs !! resolve p with
       | Some (File _) => Ok (delete (resolve p) (unlink (resolve p) fs))
       | Some (Dir _) => Fail ("IsADirectoryError: " +:+ p)
       | None => Fail ("FileNotFoundError: " +:+ p)
       end.

(** [shutil.rmtree(p)] *)
Definition rmtree (denied : string → bool) (fs : t) (p : string) : outcome t :=
  if denied p then Fail ("PermissionError: " +:+ p)
  else match fs !! resolve p with
       | Some (Dir _) =>
           Ok (filter (λ kv, ¬ resolve p `prefix_of` kv.1) (unlink (resolve p) fs))
       | Some (File _) => Fail ("NotADirectoryError: " +:+ p)
       | None => Fail ("FileNotFoundError: " +:+ p)
       end.

Fixpoint mkdirs_from (parent rest : list string) (fs : t) : outcome t :=
  match rest with
  | [] => Ok fs
  | n :: rest' =>
      let k := parent ++ [n] in
      match fs !! k with
      | Some (File _) => Fail ("NotADirectoryError: " +:+ n)
      | Some (Dir _) => mkdirs_from k rest' fs
      | None => mkdirs_from k rest' (<[k := Dir []]> (add_entry parent n fs))
      end
  end.

(** [os.makedirs(p)] *)
Definition makedirs (denied : string → bool) (fs : t) (p : string) : outcome t :=
  if denied p then Fail ("PermissionError: " +:+ p)
  else if exists_ fs p then Fail ("FileExistsError: " +:+ p)
  else mkdirs_from [] (resolve p) fs.

(** [ZipFile.extractall(dest)] for an archive with these members. *)
Definition extractall (denied : string → bool) (fs : t) (dest : string)
    (members : list (string * string)) : outcome t :=
  if denied dest then Fail ("PermissionError: " +:+ dest)
  else match mkdirs_from [] (resolve dest) fs with
       | Fail msg => Fail msg
       | Ok fs1 =>
           Ok (foldl (λ acc m, <[resolve dest ++ [m.1] := File m.2]>
                                 (add_entry (resolve dest) m.1 acc))
                     fs1 members)
       end.

(** What a pattern [d/*] matches ([glob.glob]): the paths of the
    entries of [d] whose names do not start with a dot. *)
Definition hidden (name : string) : bool :=
  match name with
  | String c _ => Ascii.eqb c (ascii_of_nat 46)
  | EmptyString => false
  end.

Definition glob_star (fs : t) (d : string) : list string :=
  match listdir fs d with
  | Ok es => map (join d) (List.filter (λ e, negb (hidden e)) es)
  | Fail _ => []
  end.

End Fs.

(** ** Exceptions, relay events, log records *)

(** [except Exception] catches the first kind only; the bundler also
    raises [SystemExit], which is a [BaseException]. *)
Inductive exn : Type :=
  | Exception (msg : string)
  | SystemExit (msg : string).

(** [str(e)] *)
Definition str (e : exn) : string :=
  match e with Exception m => m | SystemExit m => m end.

(** The (kind, payload) tuples put on [self.queue]. *)
Inductive event : Type :=
  | Log (msg : string)
  | Progress (value : nat)
  | Error (msg : string)
  | Success (msg : string)
  | Done.

(** The first component of the tuple, and the second as [str] shows it. *)
Definition kind_of (ev : event) : string :=
  match ev with
  | Log _ => "log"
  | Progress _ => "progress"
  | Error _ => "error"
  | Success _ => "success"
  | Done => "done"
  end.

Definition payload_of (ev : event) : string :=
  match ev with
  | Log msg | Error msg | Success msg => msg
  | Progress value => pretty value
  | Done => "None"
  end.

Inductive level : Type := DEBUG | INFO | WARNING | ERROR.

(** Calls that leave the process: every one the worker makes is
    recorded with whether it succeeded. *)
Inductive sysop : Type :=
  | Download (url tmp : string) (ok : bool)
  | Extract (archive dest : string) (ok : bool)
  | Remove (p : string) (ok : bool)
  | Rmtree (p : string) (ok : bool)
  | Makedirs (p : string) (ok : bool)
  | WriteFile (p content : string) (ok : bool)
  | Import (ok : bool)
  | RunBundler (args : list string) (ok : bool).

Definition succeeded (op : sysop) : bool :=
  match op with
  | Download _ _ ok | Extract _ _ ok | Remove _ ok | Rmtree _ ok
  | Makedirs _ ok | WriteFile _ _ ok | Import ok | RunBundler _ ok => ok
  end.

Inductive callback : Type := Destroy | CheckQueue.
Inductive dialog : Type := ShowError (msg : string) | ShowInfo (msg : string).

(** What lies outside the program: where it is installed, the network,
    the archive format, file permissions, the import system and the
    bundler itself. *)
Record Env : Type := {
  SCRIPT_DIR : string;
  gettempdir : string;
  urlretrieve : string → outcome string;
  unzip : string → outcome (list (string * string));
  denied : string → bool;
  import_PyInstaller : list string → outcome unit;
  PyInstaller_run : list string → Fs.t → option exn * Fs.t;
}.

(** The widgets and Tk variables of [AppConverterGUI]. *)
Record Tk : Type := {
  source_var : string;
  output_var : string;
  window_var : bool;
  is_converting : bool;
  button_enabled : bool;
  console : list string;
  progress_var : nat;
  dialogs : list dialog;
  timers : list (nat * callback);
}.

Record World : Type := {
  fs : Fs.t;
  queue : list event;
  applog : list (level * string);
  sys_path : list string;
  tk : Tk;
  trace : list sysop;
  bundled : list (list string * Fs.t);
}.

Definition set_fs (f : Fs.t) (w : World) : World :=
  {| fs := f; queue := queue w; applog := applog w; sys_path := sys_path w;
     tk := tk w; trace := trace w; bundled := bundled w |}.
Definition set_queue (q : list event) (w : World) : World :=
  {| fs := fs w; queue := q; applog := applog w; sys_path := sys_path w;
     tk := tk w; trace := trace w; bundled := bundled w |}.
Definition set_applog (l : list (level * string)) (w : World) : World :=
  {| fs := fs w; queue := queue w; applog := l; sys_path := sys_path w;
     tk := tk w; trace := trace w; bundled := bundled w |}.
Definition set_sys_path (p : list string) (w : World) : World :=
  {| fs := fs w; queue := queue w; applog := applog w; sys_path := p;
     tk := tk w; trace := trace w; bundled := bundled w |}.
Definition set_tk (g : Tk) (w : World) : World :=
  {| fs := fs w; queue := queue w; applog := applog w; sys_path := sys_path w;
     tk := g; trace := trace w; bundled := bundled w |}.
Definition set_trace (t : list sysop) (w : World) : World :=
  {| fs := fs w; queue := queue w; applog := applog w; sys_path := sys_path w;
     tk := tk w; trace := t; bundled := bundled w |}.
Definition set_bundled (b : list (list string * Fs.t)) (w : World) : World :=
  {| fs := fs w; queue := queue w; applog := applog w; sys_path := sys_path w;
     tk := tk w; trace := trace w; bundled := b |}.

Definition tk_console (c : list string) (g : Tk) : Tk :=
  {| source_var := source_var g; output_var := output_var g;
     window_var := window_var g; is_converting := is_converting g;
     button_enabled := button_enabled g; console := c;
     progress_var := progress_var g; dialogs := dialogs g;
     timers := timers g |}.
Definition tk_timers (t : list (nat * callback)) (g : Tk) : Tk :=
  {| source_var := source_var g; output_var := output_var g;
     window_var := window_var g; is_converting := is_converting g;
     button_enabled := button_enabled g; console := console g;
     progress_var := progress_var g; dialogs := dialogs g;
     timers := t |}.
Definition tk_progress (v : nat) (g : Tk) : Tk :=
  {| source_var := source_var g; output_var := output_var g;
     window_var := window_var g; is_converting := is_converting g;
     button_enabled := button_enabled g; console := console g;
     progress_var := v; dialogs := dialogs g;
     timers := timers g |}.
Definition tk_dialogs (d : list dialog) (g : Tk) : Tk :=
  {| source_var := source_var g; output_var := output_var g;
     window_var := window_var g; is_converting := is_converting g;
     button_enabled := button_enabled g; console := console g;
     progress_var := progress_var g; dialogs := d;
     timers := timers g |}.
Definition tk_converting (c enabled : bool) (g : Tk) : Tk :=
  {| source_var := source_var g; output_var := output_var g;
     window_var := window_var g; is_converting := c;
     button_enabled := enabled; console := console g;
     progress_var := progress_var g; dialogs := dialogs g;
     timers := timers g |}.

(** ** Statements: a state monad with Python's completions *)

Inductive completion (R A : Type) : Type :=
  | Normal (a : A)
  | Returned (r : R)
  | Raised (e : exn).
Arguments Normal {R A} a.
Arguments Returned {R A} r.
Arguments Raised {R A} e.

(** A statement of a function whose [return] carries an [R]. *)
Definition M (R A : Type) : Type := World → completion R A * World.

Definition ret {R A : Type} (a : A) : M R A := λ w, (Normal a, w).
Definition return_ {R A : Type} (r : R) : M R A := λ w, (Returned r, w).
Definition raise {R A : Type} (e : exn) : M R A := λ w, (Raised e, w).

Definition bind {R A B : Type} (m : M R A) (k : A → M R B) : M R B :=
  λ w, match m w with
       | (Normal a, w') => k a w'
       | (Returned r, w') => (Returned r, w')
       | (Raised e, w') => (Raised e, w')
       end.

(** [try: body except Exception as e: handler] *)
Definition try_except {R A : Type} (body : M R A) (handler : exn → M R A)
  : M R A :=
  λ w, match body w with
       | (Raised (Exception msg), w') => handler (Exception msg) w'
       | other => other
       end.

(** [try: body finally: fin] *)
Definition try_finally {R A : Type} (body : M R A) (fin : M R unit) : M R A :=
  λ w, match body w with
       | (c, w') =>
           match fin w' with
           | (Normal _, w'') => (c, w'')
           | (Returned r, w'') => (Returned r, w'')
           | (Raised e, w'') => (Raised e, w'')
           end
       end.

(** Calling a function: its [return] value, or [None] at the end of
    its body. *)
Definition call {R R' : Type} (f : M R' unit) (none : R') : M R R' :=
  λ w, match f w with
       | (Normal _, w') => (Normal none, w')
       | (Returned r, w') => (Normal r, w')
       | (Raised e, w') => (Raised e, w')
       end.

Definition when {R : Type} (c : bool) (m : M R unit) : M R unit :=
  if c then m else ret tt.

Declare Scope py_scope.
Delimit Scope py_scope with py.
Notation "x <- m ;; k" := (bind m (λ x, k))
  (at level 100, m at next level, k at level 200, right associativity)
  : py_scope.
Notation "m ;; k" := (bind m (λ _, k))
  (at level 100, k at level 200, right associativity) : py_scope.
Local Open Scope py_scope.

(** ** The generated launcher ([convert_app], the two [f.write] texts) *)

Module Launcher.
Import PyStr.

Definition quoted (s : string) : string := dquote +:+ s +:+ dquote.

Definition unlines (ls : list string) : string :=
  foldr (λ l acc, l +:+ newline +:+ acc) EmptyString ls.

(** Lines shared by both launchers: logging set-up and the choice of
    the base directory. *)
Definition base_dir_lines : list string :=
  [ EmptyString;
    "logging.basicConfig(level=logging.DEBUG, ";
    "                  filename='launcher.log',";
    "                  format='%(asctime)s - %(levelname)s - %(message)s')";
    EmptyString;
    "if getattr(sys, 'frozen', False):";
    "    # Running in a bundle";
    "    base_dir = sys._MEIPASS";
    "    logging.debug(f" +:+ quoted "Running from frozen bundle at {base_dir}" +:+ ")";
    "else:";
    "    # Running in normal Python environment";
    "    base_dir = os.path.dirname(os.path.abspath(__file__))";
    "    logging.debug(f" +:+ quoted "Running from Python environment at {base_dir}" +:+ ")";
    EmptyString ].

Definition script_lines (name : string) : list string :=
  [ "import os"; "import sys"; "import logging"; "import runpy" ]
  ++ base_dir_lines ++
  [ "script_name = " +:+ quoted name;
    "script_path = os.path.join(base_dir, script_name)";
    "logging.debug(f" +:+ quoted "Launching Python script: {script_path}" +:+ ")";
    EmptyString;
    "try:";
    "    sys.path.insert(0, base_dir)";
    "    runpy.run_path(script_path)";
    "except Exception as e:";
    "    logging.error(f" +:+ quoted "Failed to launch Python script: {str(e)}" +:+ ")";
    "    raise" ].

Definition exe_lines (name : string) : list string :=
  [ "import os"; "import sys"; "import subprocess"; "import logging" ]
  ++ base_dir_lines ++
  [ "exe_name = " +:+ quoted name;
    "exe_path = os.path.join(base_dir, exe_name)";
    "logging.debug(f" +:+ quoted "Launching executable: {exe_path}" +:+ ")";
    EmptyString;
    "try:";
    "    subprocess.run([exe_path], check=True)";
    "except Exception as e:";
    "    logging.error(f" +:+ quoted "Failed to launch executable: {str(e)}" +:+ ")";
    "    raise" ].

(** The text written to [launcher.py] for a target with this basename. *)
Definition source (is_python : bool) (name : string) : string :=
  newline +:+ unlines (if is_python then script_lines name else exe_lines name).


End Launcher.

(** ** The program *)

Record dep_info : Type := {
  pip_name : string;
  version : string;
  url : string;
}.

Definition DEPENDENCIES : list (string * dep_info) :=
  [ ("pyinstaller",
     {| pip_name := "pyinstaller";
        version := "5.13.0";
        url := "https://files.pythonhosted.org/packages/99/6e/d7d76d4d15f6351f1f942256633b795eec3d6c691d985869df1bf319cd9d/pyinstaller-6.12.0-py3-none-win_amd64.whl" |}) ].

(** [exe_files] and [py_files] of [convert_app]: the entries of the
    listing with the suffix, in listing order. *)
Definition exe_files (listing : list string) : list string :=
  List.filter (λ f, PyStr.endswith f ".exe") listing.
Definition py_files (listing : list string) : list string :=
  List.filter (λ f, PyStr.endswith f ".py") listing.

(** [pyinstaller_args] as passed to [PyInstaller.__main__.run]. *)
Definition pyinstaller_args (temp_script source_path output_path : string)
    (windowed : bool) : list string :=
  [ temp_script;
    "--distpath"; output_path;
    "--workpath"; OsPath.join output_path "build";
    "--specpath"; output_path;
    "--onefile";
    "--add-data"; source_path +:+ "/*;." ]
  ++ (if windowed then ["--windowed"] else []).

Section Program.
Import PyStr OsPath.
Variable env : Env.

(** [self.deps_dir], set in [__init__]. *)
Definition deps_dir : string := join (SCRIPT_DIR env) "dependencies".

Definition modify {R : Type} (f : World → World) : M R unit :=
  λ w, (Normal tt, f w).
Definition reads {R A : Type} (f : World → A) : M R A :=
  λ w, (Normal (f w), w).

Definition logger {R : Type} (lv : level) (msg : string) : M R unit :=
  modify (λ w, set_applog (applog w ++ [(lv, msg)]) w).
Definition queue_put {R : Type} (ev : event) : M R unit :=
  modify (λ w, set_queue (queue w ++ [ev]) w).

(** [self.log(message)] *)
Definition self_log {R : Type} (message : string) : M R unit :=
  logger DEBUG ("GUI Log: " +:+ message);;
  modify (λ w, set_tk (tk_console (console (tk w) ++ [message]) (tk w)) w).

(** [self.update_progress(value)] *)
Definition update_progress {R : Type} (value : nat) : M R unit :=
  logger DEBUG ("Progress update: " +:+ pretty value +:+ "%");;
  modify (λ w, set_tk (tk_progress value (tk w)) w).

Definition window_after {R : Type} (ms : nat) (cb : callback) : M R unit :=
  modify (λ w, set_tk (tk_timers (timers (tk w) ++ [(ms, cb)]) (tk w)) w).

Definition os_path_exists {R : Type} (p : string) : M R bool :=
  reads (λ w, Fs.exists_ (fs w) p).

Definition os_listdir {R : Type} (p : string) : M R (list string) :=
  λ w, match Fs.listdir (fs w) p with
       | Ok es => (Normal es, w)
       | Fail msg => (Raised (Exception msg), w)
       end.

(** A call that changes the file system or fails with an [OSError]. *)
Definition fs_call {R : Type} (f : Fs.t → outcome Fs.t) (op : bool → sysop)
  : M R unit :=
  λ w, match f (fs w) with
       | Ok fs' =>
           (Normal tt, set_trace (trace w ++ [op true]) (set_fs fs' w))
       | Fail msg =>
           (Raised (Exception msg), set_trace (trace w ++ [op false]) w)
       end.

Definition os_remove {R : Type} (p : string) : M R unit :=
  fs_call (λ f, Fs.remove (denied env) f p) (Remove p).
Definition shutil_rmtree {R : Type} (p : string) : M R unit :=
  fs_call (λ f, Fs.rmtree (denied env) f p) (Rmtree p).
Definition os_makedirs {R : Type} (p : string) : M R unit :=
  fs_call (λ f, Fs.makedirs (denied env) f p) (Makedirs p).
Definition open_write {R : Type} (p content : string) : M R unit :=
  fs_call (λ f, Fs.write_file (denied env) f p content) (WriteFile p content).

Definition fetch_to (source tmp : string) (f : Fs.t) : outcome Fs.t :=
  match urlretrieve env source with
  | Ok body => Fs.write_file (denied env) f tmp body
  | Fail msg => Fail msg
  end.

Definition unpack_to (archive dest : string) (f : Fs.t) : outcome Fs.t :=
  match f !! resolve archive with
  | Some (Fs.File body) =>
      match unzip env body with
      | Ok members => Fs.extractall (denied env) f dest members
      | Fail msg => Fail msg
      end
  | _ => Fail ("FileNotFoundError: " +:+ archive)
  end.

(** [urllib.request.urlretrieve(url, temp_file)] *)
Definition urllib_urlretrieve {R : Type} (source tmp : string) : M R unit :=
  fs_call (fetch_to source tmp) (Download source tmp).
(** [with zipfile.ZipFile(temp_file, 'r') as z: z.extractall(dep_path)] *)
Definition zip_extractall {R : Type} (archive dest : string) : M R unit :=
  fs_call (unpack_to archive dest) (Extract archive dest).

(** [import PyInstaller.__main__] *)
Definition import_pyinstaller {R : Type} : M R unit :=
  λ w, match import_PyInstaller env (sys_path w) with
       | Ok _ => (Normal tt, set_trace (trace w ++ [Import true]) w)
       | Fail msg =>
           (Raised (Exception msg), set_trace (trace w ++ [Import false]) w)
       end.

(** [PyInstaller.__main__.run(args)] *)
Definition pyinstaller_run {R : Type} (args : list string) : M R unit :=
  λ w, let seen := set_bundled (bundled w ++ [(args, fs w)]) w in
       match PyInstaller_run env args (fs w) with
       | (None, fs') =>
           (Normal tt,
            set_trace (trace w ++ [RunBundler args true]) (set_fs fs' seen))
       | (Some e, fs') =>
           (Raised e,
            set_trace (trace w ++ [RunBundler args false]) (set_fs fs' seen))
       end.

Definition dep_path (dep_name : string) (info : dep_info) : string :=
  join deps_dir (dep_name +:+ "-" +:+ version info).

(** The [for] loop of [ensure_dependencies]. *)
Fixpoint install_loop (deps : list (string * dep_info))
    (dependencies_installed : bool) : M bool bool :=
  match deps with
  | [] => ret dependencies_installed
  | (dep_name, info) :: rest =>
      logger DEBUG ("Checking dependency: " +:+ dep_name +:+ " at "
                    +:+ dep_path dep_name info);;
      present <- os_path_exists (dep_path dep_name info);;
      installed <-
        (if negb present then
           logger INFO ("Downloading " +:+ dep_name +:+ "...");;
           self_log ("Downloading " +:+ dep_name +:+ "...");;
           try_except
             (let temp_file := join (gettempdir env) (dep_name +:+ ".tar.gz") in
              urllib_urlretrieve (url info) temp_file;;
              zip_extractall temp_file (dep_path dep_name info);;
              os_remove temp_file;;
              logger INFO ("Installed " +:+ dep_name +:+ " successfully");;
              self_log ("Installed " +:+ dep_name +:+ " successfully"))
             (λ e,
              logger ERROR ("Failed to install " +:+ dep_name +:+ ": " +:+ str e);;
              raise e);;
           ret true
         else ret dependencies_installed);;
      in_path <- reads (λ w, mem (dep_path dep_name info) (sys_path w));;
      when (negb in_path)
        (modify (λ w, set_sys_path (dep_path dep_name info :: sys_path w) w);;
         logger DEBUG ("Added " +:+ dep_path dep_name info +:+ " to Python path"));;
      install_loop rest installed
  end.

Definition ensure_dependencies : M bool unit :=
  logger INFO "Checking dependencies...";;
  self_log "Checking dependencies...";;
  dependencies_installed <- install_loop DEPENDENCIES false;;
  when dependencies_installed
    (logger INFO "Dependencies installed. Restarting application...";;
     self_log "Dependencies installed. Restarting application...";;
     window_after 2000 Destroy;;
     return_ true);;
  return_ false.

Definition success_message (output_path : string) : string :=
  "Folder converted to single EXE successfully!" +:+ newline
  +:+ "Output location: " +:+ output_path.

(** *** The stages of [convert_app], in the order of its body *)

(** Provisioning: a run that installed something stops here. *)
Definition provision : M unit unit :=
  restart <- call ensure_dependencies false;;
  when restart (return_ tt).

(** Reading and validating the two paths. *)
Definition read_paths : M unit (string * string) :=
  source_path <- reads (λ w, strip (source_var (tk w)));;
  output_path <- reads (λ w, strip (output_var (tk w)));;
  logger DEBUG ("Source path: " +:+ source_path);;
  logger DEBUG ("Output path: " +:+ output_path);;
  when (negb (truthy source_path && truthy output_path))
    (logger ERROR "Source or output path not specified";;
     queue_put (Error "Please select source and output folders");;
     queue_put Done;;
     return_ tt);;
  source_exists <- os_path_exists source_path;;
  when (negb source_exists)
    (logger ERROR ("Source folder does not exist: " +:+ source_path);;
     queue_put (Error ("Source folder does not exist: " +:+ source_path));;
     queue_put Done;;
     return_ tt);;
  ret (source_path, output_path).

(** Scanning: the target [(main_file, is_python)]. *)
Definition scan (source_path : string) : M unit (string * bool) :=
  queue_put (Progress 0);;
  queue_put (Log "Starting conversion process...");;
  queue_put (Log ("Scanning source directory: " +:+ source_path));;
  listing <- os_listdir source_path;;
  listing' <- os_listdir source_path;;
  when (negb (truthy_list (exe_files listing))
        && negb (truthy_list (py_files listing')))
    (logger ERROR "No EXE or Python files found in source folder";;
     queue_put (Error "No EXE or Python files found in source folder");;
     queue_put Done;;
     return_ tt);;
  target <-
    match exe_files listing with
    | f :: _ =>
        let main_file := join source_path f in
        logger INFO ("Found EXE file: " +:+ main_file);;
        queue_put (Log ("Found EXE file: " +:+ main_file));;
        ret (main_file, false)
    | [] =>
        match py_files listing' with
        | f :: _ =>
            let main_file := join source_path f in
            logger INFO ("Found Python file: " +:+ main_file);;
            queue_put (Log ("Found Python file: " +:+ main_file));;
            ret (main_file, true)
        | [] => raise (Exception "IndexError: list index out of range")
        end
    end;;
  queue_put (Progress 20);;
  ret target.

(** Output preparation. *)
Definition prepare_output (output_path : string) : M unit unit :=
  output_exists <- os_path_exists output_path;;
  when (negb output_exists)
    (try_except
       (os_makedirs output_path;;
        logger DEBUG ("Created output directory: " +:+ output_path);;
        queue_put (Log ("Created output directory: " +:+ output_path)))
       (λ e,
        logger ERROR ("Could not create output directory: " +:+ str e);;
        queue_put (Error ("Could not create output directory: " +:+ str e));;
        queue_put Done;;
        return_ tt)).

(** [temp_script] *)
Definition launcher_path (source_path : string) : string :=
  join source_path "launcher.py".

(** Stub write. *)
Definition write_launcher (source_path main_file : string)
    (is_python : bool) : M unit unit :=
  queue_put (Log "Creating launcher script...");;
  queue_put (Progress 40);;
  try_except
    (open_write (launcher_path source_path)
       (Launcher.source is_python (basename main_file));;
     logger DEBUG "Created launcher script successfully")
    (λ e,
     logger ERROR ("Failed to create launcher script: " +:+ str e);;
     raise e).

(** Bundler invocation. *)
Definition invoke_bundler (source_path output_path : string) : M unit unit :=
  queue_put (Log "Configuring PyInstaller...");;
  queue_put (Progress 60);;
  try_except
    (import_pyinstaller;;
     windowed <- reads (λ w, window_var (tk w));;
     when windowed
       (logger DEBUG "Window mode enabled";;
        queue_put (Log "Window mode enabled - console will be hidden in final EXE"));;
     logger INFO "Running PyInstaller...";;
     queue_put (Log "Running PyInstaller...");;
     queue_put (Progress 80);;
     pyinstaller_run
       (pyinstaller_args (launcher_path source_path) source_path
          output_path windowed);;
     logger INFO "PyInstaller completed successfully")
    (λ e,
     logger ERROR ("PyInstaller failed: " +:+ str e);;
     raise e).

(** Cleanup of the temporary artifacts. *)
Definition clean_up (source_path output_path : string) : M unit unit :=
  try_except
    (os_remove (launcher_path source_path);;
     let build_dir := join output_path "build" in
     let spec_file := join output_path "launcher.spec" in
     build_exists <- os_path_exists build_dir;;
     when build_exists (shutil_rmtree build_dir);;
     spec_exists <- os_path_exists spec_file;;
     when spec_exists (os_remove spec_file);;
     logger DEBUG "Cleaned up temporary files and build artifacts";;
     queue_put (Log "Cleaned up temporary files and build artifacts");;
     queue_put (Progress 100))
    (λ e,
     logger WARNING ("Failed to clean up temporary files: " +:+ str e)).

Definition announce (output_path : string) : M unit unit :=
  logger INFO "Conversion completed successfully";;
  queue_put (Log "Conversion completed successfully!");;
  queue_put (Success (success_message output_path)).

(** The outermost [except Exception as e] of [convert_app]. *)
Definition report (e : exn) : M unit unit :=
  let error_msg := "An error occurred: " +:+ str e in
  logger ERROR error_msg;;
  queue_put (Log ("ERROR: " +:+ error_msg));;
  queue_put (Error error_msg).

Definition convert_app : M unit unit :=
  try_finally
    (try_except
       (logger INFO "Starting app conversion";;
        provision;;
        paths <- read_paths;;
        target <- scan paths.1;;
        prepare_output paths.2;;
        write_launcher paths.1 target.1 target.2;;
        invoke_bundler paths.1 paths.2;;
        clean_up paths.1 paths.2;;
        announce paths.2)
       report)
    (queue_put Done).

End Program.

(** ** The interactive surface: [start_conversion] and [check_queue] *)

Section Surface.

(** [start_conversion] up to the start of the worker thread; the
    worker itself is [convert_app]. *)
Definition start_conversion : M unit unit :=
  converting <- reads (λ w, is_converting (tk w));;
  when converting
    (logger DEBUG "Conversion already in progress";; return_ tt);;
  logger INFO "Starting conversion process";;
  modify (λ w, set_tk (tk_converting true false (tk w)) w);;
  window_after 100 CheckQueue.

Definition messagebox {R : Type} (d : dialog) : M R unit :=
  modify (λ w, set_tk (tk_dialogs (dialogs (tk w) ++ [d]) (tk w)) w).

(** The [while True] loop of [check_queue] over the events pending at
    the call; [get_nowait] on the empty queue lands in the
    [except queue.Empty] branch. *)
Fixpoint check_queue_loop (pending : list event) : M unit unit :=
  match pending with
  | [] =>
      converting <- reads (λ w, is_converting (tk w));;
      when converting (window_after 100 CheckQueue)
  | ev :: rest =>
      modify (set_queue rest);;
      logger DEBUG ("Queue message received: " +:+ kind_of ev +:+ " - "
                    +:+ payload_of ev);;
      match ev with
      | Log msg => self_log msg
      | Progress value => update_progress value
      | Error msg => logger ERROR msg;; messagebox (ShowError msg)
      | Success msg => logger INFO msg;; messagebox (ShowInfo msg)
      | Done =>
          modify (λ w, set_tk (tk_converting false true (tk w)) w);;
          return_ tt
      end;;
      check_queue_loop rest
  end.

Definition check_queue : M unit unit :=
  λ w, check_queue_loop (queue w) w.

End Surface.

(** * Verification *)

(** ** What one run adds to the world *)

Definition new_events (w w' : World) : list event :=
  drop (length (queue w)) (queue w').
Definition new_ops (w w' : World) : list sysop :=
  drop (length (trace w)) (trace w').
Definition new_logs (w w' : World) : list (level * string) :=
  drop (length (applog w)) (applog w').
Definition new_calls (w w' : World) : list (list string * Fs.t) :=
  drop (length (bundled w)) (bundled w').

(** A stage that leaves the widgets, the import path and the record of
    bundler calls alone, and only appends to the log file. *)
Definition quiet (w w' : World) : Prop :=
  tk w' = tk w ∧ sys_path w' = sys_path w ∧ bundled w' = bundled w ∧
  ∃ logs, applog w' = applog w ++ logs.

Definition pyinstaller_info : dep_info :=
  {| pip_name := "pyinstaller"; version := "5.13.0";
     url := "https://files.pythonhosted.org/packages/99/6e/d7d76d4d15f6351f1f942256633b795eec3d6c691d985869df1bf319cd9d/pyinstaller-6.12.0-py3-none-win_amd64.whl" |}.

(** The target the scanner settles on for a listing, as the
    specification words it: an executable before a script, the first
    of its kind in listing order. *)
Definition select_target (source_path : string) (listing : list string)
  : option (string * bool) :=
  match exe_files listing with
  | f :: _ => Some (OsPath.join source_path f, false)
  | [] =>
      match py_files listing with
      | f :: _ => Some (OsPath.join source_path f, true)
      | [] => None
      end
  end.

Definition scan_prefix (source_path : string) : list event :=
  [ Progress 0; Log "Starting conversion process...";
    Log ("Scanning source directory: " +:+ source_path) ].

Definition found_line (target : string * bool) : event :=
  Log ((if target.2 then "Found Python file: " else "Found EXE file: ")
       +:+ target.1).

Definition not_found_message : string :=
  "No EXE or Python files found in source folder".

Definition bundling_events (windowed : bool) : list event :=
  [ Log "Configuring PyInstaller..."; Progress 60 ]
  ++ (if windowed
      then [Log "Window mode enabled - console will be hidden in final EXE"]
      else [])
  ++ [ Log "Running PyInstaller..."; Progress 80 ].

Definition no_error (r : option exn) : bool :=
  match r with None => true | Some _ => false end.

Definition is_cleanup (op : sysop) : bool :=
  match op with Remove _ _ | Rmtree _ _ => true | _ => false end.

Section Provisioning.
Variable env : Env.
Import PyStr OsPath.

Definition pyinstaller_path : string :=
  dep_path env "pyinstaller" pyinstaller_info.
Definition temp_archive : string :=
  join (gettempdir env) "pyinstaller.tar.gz".

(** The calls of one install, up to the first that fails. *)
Definition install_ops (d e r : bool) : list sysop :=
  [Download (url pyinstaller_info) temp_archive d] ++
  (if d then [Extract temp_archive pyinstaller_path e] ++
             (if e then [Remove temp_archive r] else [])
   else []).

(** One install that went through, from file system [f] to [f']. *)
Definition installed (f f' : Fs.t) : Prop :=
  ∃ f1 f2,
    fetch_to env (url pyinstaller_info) temp_archive f = Ok f1 ∧
    unpack_to env temp_archive pyinstaller_path f1 = Ok f2 ∧
    Fs.remove (denied env) f2 temp_archive = Ok f'.

(** One install that failed with [msg]: at the download, at the
    extraction, or at the deletion of the archive. *)
Definition install_failed (f : Fs.t) (msg : string) (d e : bool) : Prop :=
  match d, e with
  | false, _ => fetch_to env (url pyinstaller_info) temp_archive f = Fail msg
  | true, false =>
      ∃ f1, fetch_to env (url pyinstaller_info) temp_archive f = Ok f1 ∧
            unpack_to env temp_archive pyinstaller_path f1 = Fail msg
  | true, true =>
      ∃ f1 f2,
        fetch_to env (url pyinstaller_info) temp_archive f = Ok f1 ∧
        unpack_to env temp_archive pyinstaller_path f1 = Ok f2 ∧
        Fs.remove (denied env) f2 temp_archive = Fail msg
  end.

End Provisioning.

(** ** Reading the lists a run leaves behind *)

Definition progress_values (evs : list event) : list nat :=
  omap (λ e, match e with Progress v => Some v | _ => None end) evs.

(** [value] is the argument that follows [flag]. *)
Definition follows (flag value : string) (args : list string) : Prop :=
  ∃ pre post, args = pre ++ flag :: value :: post.

(** [n] is the first entry of [l] that passes [P]. *)
Definition first_match (P : string → bool) (l : list string) (n : string)
  : Prop :=
  ∃ pre post, l = pre ++ n :: post ∧ P n = true ∧
              Forall (λ x, P x = false) pre.

Definition is_exe (f : string) : bool := PyStr.endswith f ".exe".

Definition is_py (f : string) : bool := PyStr.endswith f ".py".

Definition is_done (ev : event) : bool :=
  match ev with Done => true | _ => false end.


(** * A small disk *)

Module Examples.
Import PyStr OsPath.

Definition disk : Fs.t :=
  list_to_map
    [ (["C:"], Fs.Dir ["tool"; "tmp"; "app"; "mix"; "proj"; "bare"; "out"]);
      (["C:"; "tool"], Fs.Dir ["dependencies"]);
      (["C:"; "tool"; "dependencies"], Fs.Dir ["pyinstaller-5.13.0"]);
      (["C:"; "tool"; "dependencies"; "pyinstaller-5.13.0"], Fs.Dir []);
      (["C:"; "tmp"], Fs.Dir []);
      (["C:"; "app"], Fs.Dir ["app.py"; "data.txt"]);
      (["C:"; "app"; "app.py"], Fs.File "print('app')");
      (["C:"; "app"; "data.txt"], Fs.File "data");
      (["C:"; "mix"], Fs.Dir ["a.py"; "tool.exe"; "b.exe"]);
      (["C:"; "mix"; "a.py"], Fs.File "print('a')");
      (["C:"; "mix"; "tool.exe"], Fs.File "MZ");
      (["C:"; "mix"; "b.exe"], Fs.File "MZ");
      (["C:"; "proj"], Fs.Dir ["notes.txt"; "plugin.py"]);
      (["C:"; "proj"; "notes.txt"], Fs.File "notes");
      (["C:"; "proj"; "plugin.py"], Fs.Dir ["__init__.py"]);
      (["C:"; "proj"; "plugin.py"; "__init__.py"], Fs.File EmptyString);
      (["C:"; "bare"], Fs.Dir ["readme.txt"]);
      (["C:"; "bare"; "readme.txt"], Fs.File "read me");
      (["C:"; "out"], Fs.Dir []) ].

(** The same disk before the bundler was ever installed. *)
Definition fresh_disk : Fs.t :=
  delete ["C:"; "tool"; "dependencies"; "pyinstaller-5.13.0"]
    (<[ ["C:"; "tool"; "dependencies"] := Fs.Dir [] ]> disk).

Definition nothing_denied (p : string) : bool := false.

(** A bundler that leaves the executable, the work directory and the
    spec file in the distribution directory. *)
Definition bundler_builds (args : list string) (f : Fs.t)
  : option exn * Fs.t :=
  let out := nth 2 args EmptyString in
  match Fs.makedirs nothing_denied f (join out "build") with
  | Fail m => (Some (Exception m), f)
  | Ok f1 =>
      match Fs.write_file nothing_denied f1 (join out "launcher.spec") "spec" with
      | Fail m => (Some (Exception m), f1)
      | Ok f2 =>
          match Fs.write_file nothing_denied f2 (join out "launcher.exe") "MZ" with
          | Fail m => (Some (Exception m), f2)
          | Ok f3 => (None, f3)
          end
      end
  end.

Definition bundler_fails (args : list string) (f : Fs.t)
  : option exn * Fs.t :=
  (Some (Exception "PyInstaller exited with status 1"), f).

Definition env_ready : Env :=
  {| SCRIPT_DIR := "C:\tool"; gettempdir := "C:\tmp";
     urlretrieve := λ _, Ok "archive";
     unzip := λ _, Ok [("PyInstaller", "package")];
     denied := nothing_denied;
     import_PyInstaller := λ _, Ok tt;
     PyInstaller_run := bundler_builds |}.

Definition env_bundler_fails : Env :=
  {| SCRIPT_DIR := "C:\tool"; gettempdir := "C:\tmp";
     urlretrieve := λ _, Ok "archive";
     unzip := λ _, Ok [("PyInstaller", "package")];
     denied := nothing_denied;
     import_PyInstaller := λ _, Ok tt;
     PyInstaller_run := bundler_fails |}.

(** The spec file cannot be deleted. *)
Definition env_locked_spec : Env :=
  {| SCRIPT_DIR := "C:\tool"; gettempdir := "C:\tmp";
     urlretrieve := λ _, Ok "archive";
     unzip := λ _, Ok [("PyInstaller", "package")];
     denied := String.eqb "C:\out\launcher.spec";
     import_PyInstaller := λ _, Ok tt;
     PyInstaller_run := bundler_builds |}.

Definition form (source output : string) (windowed : bool) : Tk :=
  {| source_var := source; output_var := output; window_var := windowed;
     is_converting := false; button_enabled := true; console := [];
     progress_var := 0; dialogs := []; timers := [] |}.

Definition world (f : Fs.t) (g : Tk) : World :=
  {| fs := f; queue := []; applog := []; sys_path := []; tk := g;
     trace := []; bundled := [] |}.

Definition w_app : World := world disk (form " C:\app " "C:\out" false).
Definition w_windowed : World := world disk (form "C:\app" "C:\out" true).
Definition w_mix : World := world disk (form "C:\mix" "C:\out" false).
Definition w_proj : World := world disk (form "C:\proj" "C:\out" false).
Definition w_blank : World := world disk (form "   " "C:\out" false).
Definition w_fresh : World := world fresh_disk (form "C:\app" "C:\out" false).
Definition w_bare : World := world disk (form "C:\bare" "C:\out" false).

(** The start button pressed, the worker run to its end, one poll of
    the relay. *)
Definition pressed (w : World) : World := (start_conversion w).2.
Definition worked (e : Env) (w : World) : World := (convert_app e w).2.
Definition polled (w : World) : World := (check_queue w).2.

End Examples.

(** * The rest of [AppConverterGUI]: [__init__] and the browse buttons *)

Definition tk_source (s : string) (g : Tk) : Tk :=
  {| source_var := s; output_var := output_var g;
     window_var := window_var g; is_converting := is_converting g;
     button_enabled := button_enabled g; console := console g;
     progress_var := progress_var g; dialogs := dialogs g;
     timers := timers g |}.
Definition tk_output (s : string) (g : Tk) : Tk :=
  {| source_var := source_var g; output_var := s;
     window_var := window_var g; is_converting := is_converting g;
     button_enabled := button_enabled g; console := console g;
     progress_var := progress_var g; dialogs := dialogs g;
     timers := timers g |}.

(** [os.path.isdir(p)] *)
Definition isdir (f : Fs.t) (p : string) : bool :=
  match f !! OsPath.resolve p with Some (Fs.Dir _) => true | _ => false end.

(** The key holds a directory. *)
Definition holds_dir (f : Fs.t) (k : list string) : Prop :=
  ∃ es, f !! k = Some (Fs.Dir es).

(** [os.makedirs(p, exist_ok=True)]: an existing directory is left as
    it is, whatever [mkdir] answered; an existing file is an error. *)
Definition makedirs_exist_ok (denied : string → bool) (f : Fs.t) (p : string)
  : outcome Fs.t :=
  match f !! OsPath.resolve p with
  | Some (Fs.Dir _) => Ok f
  | Some (Fs.File _) => Fail ("FileExistsError: " +:+ p)
  | None =>
      if denied p then Fail ("PermissionError: " +:+ p)
      else Fs.mkdirs_from [] (OsPath.resolve p) f
  end.

(** What Tk answers.  [tk.Tk()] and [style.theme_use] raise a
    [TclError] where there is no display or no such theme;
    [filedialog.askdirectory(initialdir=d)] gives the folder chosen
    and the empty string when the dialog is cancelled. *)
Record Toolkit : Type := {
  create_window : outcome unit;
  theme_use : string → outcome unit;
  askdirectory : string → outcome string;
}.

(** The form as the constructor lays it out (lines 58 to 116): empty
    path variables, window mode off, the button in its normal state,
    an empty console, the progress bar at zero. *)
Definition blank_form : Tk :=
  {| source_var := EmptyString; output_var := EmptyString;
     window_var := false; is_converting := false; button_enabled := true;
     console := []; progress_var := 0; dialogs := []; timers := [] |}.

Section Window.
Import PyStr OsPath.
Variable env : Env.
Variable toolkit : Toolkit.

(** A call into Tk; [TclError] is an [Exception]. *)
Definition tcl {R A : Type} (answer : outcome A) : M R A :=
  λ w, match answer with
       | Ok a => (Normal a, w)
       | Fail msg => (Raised (Exception msg), w)
       end.

Definition os_makedirs_exist_ok {R : Type} (p : string) : M R unit :=
  fs_call (λ f, makedirs_exist_ok (denied env) f p) (Makedirs p).

(** [AppConverterGUI.__init__] *)
Definition init : M unit unit :=
  logger DEBUG "Initializing AppConverterGUI";;
  tcl (create_window toolkit);;
  os_makedirs_exist_ok (deps_dir env);;
  logger DEBUG ("Dependencies directory: " +:+ deps_dir env);;
  modify (set_tk blank_form);;
  tcl (theme_use toolkit "vista");;
  modify (set_queue []);;
  modify (λ w, set_tk (tk_converting false true (tk w)) w);;
  let default_source := join (SCRIPT_DIR env) "source" in
  let default_output := join (SCRIPT_DIR env) "output" in
  os_makedirs_exist_ok default_source;;
  os_makedirs_exist_ok default_output;;
  modify (λ w, set_tk (tk_source default_source (tk w)) w);;
  modify (λ w, set_tk (tk_output default_output (tk w)) w);;
  logger DEBUG ("Default source path: " +:+ default_source);;
  logger DEBUG ("Default output path: " +:+ default_output).

(** [browse_source] *)
Definition browse_source : M unit unit :=
  try_except
    (initialdir <- reads (λ w, source_var (tk w));;
     folder <- tcl (askdirectory toolkit initialdir);;
     when (truthy folder)
       (logger DEBUG ("Source folder selected: " +:+ folder);;
        modify (λ w, set_tk (tk_source folder (tk w)) w);;
        self_log ("Source folder selected: " +:+ folder)))
    (λ e,
     logger ERROR ("Error selecting source folder: " +:+ str e);;
     messagebox (ShowError ("Failed to select source folder: " +:+ str e))).

(** [browse_output] *)
Definition browse_output : M unit unit :=
  try_except
    (initialdir <- reads (λ w, output_var (tk w));;
     folder <- tcl (askdirectory toolkit initialdir);;
     when (truthy folder)
       (logger DEBUG ("Output folder selected: " +:+ folder);;
        modify (λ w, set_tk (tk_output folder (tk w)) w);;
        self_log ("Output folder selected: " +:+ folder)))
    (λ e,
     logger ERROR ("Error selecting output folder: " +:+ str e);;
     messagebox (ShowError ("Failed to select output folder: " +:+ str e))).

End Window.

(** ** What the relay consumer shows *)

(** The events ahead of the first [done]. *)
Fixpoint before_done (q : list event) : list event :=
  match q with
  | [] => []
  | Done :: _ => []
  | ev :: rest => ev :: before_done rest
  end.

(** The console lines and the dialogs a list of events stands for. *)
Definition console_lines (evs : list event) : list string :=
  omap (λ e, match e with Log msg => Some msg | _ => None end) evs.
Definition dialogs_of (evs : list event) : list dialog :=
  omap (λ e, match e with
             | Error msg => Some (ShowError msg)
             | Success msg => Some (ShowInfo msg)
             | _ => None
             end) evs.

(** ** What a run tells the user *)

Definition is_verdict (ev : event) : bool :=
  match ev with Error _ | Success _ => true | _ => false end.

Definition progress_scale : list nat := [0; 20; 40; 60; 80; 100].

(** The three paths the cleanup of [convert_app] deletes. *)
Definition cleanup_target (source_path output_path : string) (op : sysop)
  : Prop :=
  ∃ ok, op = Remove (launcher_path source_path) ok ∨
        op = Rmtree (OsPath.join output_path "build") ok ∨
        op = Remove (OsPath.join output_path "launcher.spec") ok.

(** * More worlds *)

Module Scenes.
Import PyStr OsPath Examples.

(** What the server sends is not a zip archive. *)
Definition env_bad_archive : Env :=
  {| SCRIPT_DIR := "C:\tool"; gettempdir := "C:\tmp";
     urlretrieve := λ _, Ok "archive";
     unzip := λ _, Fail "BadZipFile: File is not a zip file";
     denied := nothing_denied;
     import_PyInstaller := λ _, Ok tt;
     PyInstaller_run := bundler_builds |}.

(** A desktop with the theme; every dialog is cancelled. *)
Definition desktop : Toolkit :=
  {| create_window := Ok tt;
     theme_use := λ _, Ok tt;
     askdirectory := λ _, Ok EmptyString |}.

(** The user keeps a [launcher.py] of their own in the source folder. *)
Definition disk_with_launcher : Fs.t :=
  <[ ["C:"; "app"; "launcher.py"] := Fs.File "print('mine')" ]>
    (<[ ["C:"; "app"] := Fs.Dir ["app.py"; "data.txt"; "launcher.py"] ]> disk).

Definition w_own : World :=
  world disk_with_launcher (form "C:\app" "C:\out" false).

(** A poll that finds the worker finished, and one that finds it
    half-way. *)
Definition w_finished : World :=
  set_queue [Log "Creating launcher script..."; Progress 40; Done; Done]
    (pressed w_app).
Definition w_running : World :=
  set_queue [Log "Creating launcher script..."; Progress 40] (pressed w_app).

(** A run that failed has left its stub, ahead of the script in the
    listing. *)
Definition disk_leftover : Fs.t :=
  <[ ["C:"; "app"; "launcher.py"] := Fs.File (Launcher.source true "app.py") ]>
    (<[ ["C:"; "app"] := Fs.Dir ["launcher.py"; "app.py"; "data.txt"] ]> disk).

Definition w_leftover : World :=
  world disk_leftover (form "C:\app" "C:\out" false).

End Scenes.

(** * Facts about the model *)

Section StringFacts.
Import PyStr.

Lemma append_cons (c : ascii) (a b : string) :
  String c a +:+ b = String c (a +:+ b).
Proof. reflexivity. Qed.

Lemma append_nil_l (a : string) : EmptyString +:+ a = a.
Proof. reflexivity. Qed.

Lemma append_assoc (a b c : string) : (a +:+ b) +:+ c = a +:+ b +:+ c.
Proof.
  induction a as [|x a IH]; [done|]. by rewrite !append_cons, IH.
Qed.

Lemma append_nil_r (a : string) : a +:+ EmptyString = a.
Proof. induction a as [|x a IH]; [done|]. by rewrite append_cons, IH. Qed.

Lemma endswith_refl (s : string) : endswith s s = true.
Proof. destruct s; cbn [endswith]; by rewrite String.eqb_refl. Qed.

Lemma endswith_app (pre suf : string) : endswith (pre +:+ suf) suf = true.
Proof.
  induction pre as [|c pre IH]; [apply endswith_refl|].
  rewrite append_cons. cbn [endswith]. rewrite IH.
  by destruct (String.eqb _ _).
Qed.

Lemma endswith_inv (s suf : string) :
  endswith s suf = true → ∃ pre, s = pre +:+ suf.
Proof.
  induction s as [|c s IH]; cbn [endswith].
  - destruct (String.eqb_spec EmptyString suf) as [<-|]; [|done].
    by exists EmptyString.
  - destruct (String.eqb_spec (String c s) suf) as [<-|].
    + by exists EmptyString.
    + intros [pre ->]%IH. by exists (String c pre).
Qed.

(** [endswith] is exactly "has this suffix". *)
Lemma endswith_spec (s suf : string) :
  endswith s suf = true ↔ ∃ pre, s = pre +:+ suf.
Proof.
  split; [apply endswith_inv|]. intros [pre ->]. apply endswith_app.
Qed.

Lemma occurs_in_here (pre piece post : string) :
  occurs_in piece (pre +:+ piece +:+ post).
Proof. by exists pre, post. Qed.


Lemma occurs_in_app_l (piece a b : string) :
  occurs_in piece a → occurs_in piece (a +:+ b).
Proof.
  intros (pre & post & ->). exists pre, (post +:+ b).
  by rewrite !append_assoc.
Qed.

End StringFacts.

Section PathFacts.
Import PyStr OsPath.

Lemma components_plain (n : string) : plain n = true → components n = [n].
Proof.
  induction n as [|c n IH]; [done|]. cbn [plain components].
  unfold is_boundary. intros [Hc Hn]%andb_true_iff.
  apply negb_true_iff, orb_false_iff in Hc as [-> ->].
  by rewrite (IH Hn).
Qed.

Lemma resolve_plain (n : string) :
  plain n = true → n ≠ EmptyString → resolve n = [n].
Proof.
  intros Hp Hn. unfold resolve. rewrite (components_plain _ Hp).
  by destruct n.
Qed.

(** Cutting a path at a separator or colon cuts its pieces. *)
Lemma components_boundary (a : string) (c : ascii) :
  is_boundary c = true →
  ∃ init, init ≠ [] ∧ ∀ b, components (a +:+ String c b) = init ++ components b.
Proof.
  intros Hc. induction a as [|x a (init & Hne & IH)].
  - unfold is_boundary in Hc. destruct (is_sep c) eqn:Hs.
    + exists [EmptyString]. split; [done|]. intros b.
      rewrite append_nil_l. cbn [components]. by rewrite Hs.
    + cbn in Hc. exists [String c EmptyString]. split; [done|]. intros b.
      rewrite append_nil_l. cbn [components]. by rewrite Hs, Hc.
  - destruct (is_sep x) eqn:Hs; [|destruct (is_colon x) eqn:Hx].
    + exists (EmptyString :: init). split; [done|]. intros b.
      rewrite append_cons. cbn [components]. by rewrite Hs, IH.
    + exists (String x EmptyString :: init). split; [done|]. intros b.
      rewrite append_cons. cbn [components]. by rewrite Hs, Hx, IH.
    + destruct init as [|h t]; [done|].
      exists (String x h :: t). split; [done|]. intros b.
      rewrite append_cons. cbn [components]. by rewrite Hs, Hx, IH.
Qed.

Lemma components_nonempty (p : string) : components p ≠ [].
Proof.
  destruct p as [|c p]; [done|]. cbn [components].
  destruct (is_sep c); [done|]. destruct (is_colon c); [done|].
  by destruct (components p).
Qed.

Lemma components_sep (a : string) (c : ascii) (b : string) :
  is_sep c = true →
  components (a +:+ String c b) = components a ++ components b.
Proof.
  intros Hc. induction a as [|x a IH].
  - rewrite append_nil_l. cbn [components]. by rewrite Hc.
  - rewrite append_cons. cbn [components]. rewrite IH.
    destruct (is_sep x); [done|]. destruct (is_colon x); [done|].
    pose proof (components_nonempty a). by destruct (components a).
Qed.

Lemma last_char_snoc (a : string) :
  a = EmptyString ∧ last_char a = None ∨
  ∃ a0 c, a = a0 +:+ String c EmptyString ∧ last_char a = Some c.
Proof.
  induction a as [|x a IH]; [by left|]. right.
  destruct IH as [[-> _]|(a0 & c & -> & Hl)].
  - by exists EmptyString, x.
  - exists (String x a0), c. split; [done|].
    cbn [last_char]. rewrite Hl. by destruct a0.
Qed.

(** What [join] builds, piece by piece. *)
Lemma join_shape (a n : string) :
  a = EmptyString ∧ join a n = n ∨
  ∃ a1 c, is_boundary c = true ∧ join a n = a1 +:+ String c n ∧
          resolve (a1 +:+ String c EmptyString) = resolve a.
Proof.
  unfold join.
  destruct (last_char_snoc a) as [[-> ->]|(a0 & c & -> & ->)]; [by left|].
  right. destruct (is_boundary c) eqn:Hc.
  - exists a0, c. by rewrite append_assoc.
  - exists (a0 +:+ String c EmptyString), (ascii_of_nat 92).
    split; [done|]. split; [done|].
    unfold resolve. rewrite components_sep by done.
    rewrite List.filter_app. cbn. by rewrite app_nil_r.
Qed.

(** Joining a directory with an entry name addresses that entry. *)
Lemma resolve_join (a n : string) :
  plain n = true → n ≠ EmptyString → resolve (join a n) = resolve a ++ [n].
Proof.
  intros Hp Hn.
  destruct (join_shape a n) as [[-> ->]|(a1 & c & Hc & -> & <-)].
  - by rewrite resolve_plain.
  - destruct (components_boundary a1 c Hc) as (init & _ & Hi).
    unfold resolve. rewrite !Hi, !List.filter_app.
    fold (resolve n). rewrite (resolve_plain _ Hp Hn).
    cbn. by rewrite app_nil_r.
Qed.

(** [basename] undoes [join] on an entry name. *)
Lemma basename_join (a n : string) :
  plain n = true → basename (join a n) = n.
Proof.
  intros Hp. unfold basename.
  destruct (join_shape a n) as [[-> ->]|(a1 & c & Hc & -> & _)].
  - by rewrite components_plain.
  - destruct (components_boundary a1 c Hc) as (init & _ & ->).
    rewrite components_plain by done. apply last_last.
Qed.

End PathFacts.

Section FsFacts.
Import PyStr OsPath Fs.





End FsFacts.

Section LauncherFacts.
Import PyStr Launcher.






End LauncherFacts.

(** * The stages, one by one *)

Ltac scrutinee t :=
  lazymatch t with
  | context [match ?x with _ => _ end] => scrutinee x
  | _ => t
  end.

Ltac norm_in H :=
  cbv beta iota zeta delta
    [bind ret return_ raise try_except try_finally call when
     modify reads logger queue_put self_log update_progress window_after
     os_path_exists os_listdir fs_call os_remove shutil_rmtree os_makedirs
     open_write urllib_urlretrieve zip_extractall import_pyinstaller
     pyinstaller_run negb andb orb fst snd str
     set_fs set_queue set_applog set_sys_path set_tk set_trace set_bundled
     tk_console tk_timers tk_progress tk_dialogs tk_converting
     fs queue applog sys_path tk trace bundled
     source_var output_var window_var is_converting button_enabled console
     progress_var dialogs timers PyStr.truthy_list no_error] in H.

Ltac split_world w := destruct w as [? ? ? ? [? ? ? ? ? ? ? ? ?] ? ?].

Ltac run_in H :=
  repeat (let T := type of H in
          let x := scrutinee T in
          lazymatch x with
          | T => fail
          | _ => destruct x eqn:?; revert H; simplify_eq; intros H; norm_in H
          end).

Ltac close :=
  repeat match goal with
         | |- _ ∧ _ => split
         | |- ∃ _, _ => eexists
         end;
  first [ eassumption | reflexivity
        | rewrite <- ?app_assoc; cbn [app]; reflexivity
        | rewrite ?app_nil_r; reflexivity
        | done
        | repeat match goal with E : _ = _ |- _ => rewrite E end; reflexivity
        | solve [cbn [In]; repeat first [left; reflexivity | right]] ].

Ltac choose :=
  first [ solve [close] | left; solve [close] | right; choose ].

Ltac settle :=
  lazymatch goal with
  | |- _ ∧ _ => split; [settle | settle]
  | |- ∃ _, _ => eexists; settle
  | |- _ ∨ _ => choose
  | |- _ => solve [close]
  end.

Ltac finish H :=
  injection H as <- <-; unfold quiet;
  cbn [fs queue applog sys_path tk trace bundled source_var output_var
       window_var timers];
  settle.

Section Stages.
Variable env : Env.
Import PyStr OsPath.

Lemma ensure_dependencies_cases (w : World) (c : completion bool unit)
    (w' : World) :
  ensure_dependencies env w = (c, w') →
  queue w' = queue w ∧ bundled w' = bundled w ∧
  source_var (tk w') = source_var (tk w) ∧
  output_var (tk w') = output_var (tk w) ∧
  window_var (tk w') = window_var (tk w) ∧
  (∃ logs, applog w' = applog w ++ logs) ∧
  ((c = Returned false ∧ Fs.exists_ (fs w) (pyinstaller_path env) = true ∧
    fs w' = fs w ∧ trace w' = trace w) ∨
   (c = Returned true ∧ Fs.exists_ (fs w) (pyinstaller_path env) = false ∧
    trace w' = trace w ++ install_ops env true true true ∧
    timers (tk w') = timers (tk w) ++ [(2000, Destroy)] ∧
    installed env (fs w) (fs w')) ∨
   (∃ msg d e, c = Raised (Exception msg) ∧
    Fs.exists_ (fs w) (pyinstaller_path env) = false ∧
    trace w' = trace w ++ install_ops env d e false ∧
    install_failed env (fs w) msg d e)).
Proof.
  intros H. split_world w.
  unfold ensure_dependencies, DEPENDENCIES, install_loop in H.
  norm_in H. change (dep_path env _ _) with (pyinstaller_path env) in H.
  change (join (gettempdir env) _) with (temp_archive env) in H.
  change (url _) with (url pyinstaller_info) in H.
  run_in H.
  all: injection H as <- <-;
    cbn [fs queue applog sys_path tk trace bundled source_var output_var
         window_var timers].
  all: repeat match goal with |- _ ∧ _ => split; [solve [close]|] end.
  all: first
    [ left; solve [close]
    | right; left; unfold installed; solve [close]
    | right; right; eexists _, true, true; cbn; solve [close]
    | right; right; eexists _, true, false; cbn; solve [close]
    | right; right; eexists _, false, false; cbn; solve [close] ].
Qed.

Lemma provision_spec (w : World) (c : completion unit unit) (w' : World) :
  provision env w = (c, w') →
  queue w' = queue w ∧ bundled w' = bundled w ∧
  source_var (tk w') = source_var (tk w) ∧
  output_var (tk w') = output_var (tk w) ∧
  window_var (tk w') = window_var (tk w) ∧
  (∃ logs, applog w' = applog w ++ logs) ∧
  ((c = Normal tt ∧ Fs.exists_ (fs w) (pyinstaller_path env) = true ∧
    fs w' = fs w ∧ trace w' = trace w) ∨
   (c = Returned tt ∧ Fs.exists_ (fs w) (pyinstaller_path env) = false ∧
    trace w' = trace w ++ install_ops env true true true ∧
    installed env (fs w) (fs w')) ∨
   (∃ msg d e, c = Raised (Exception msg) ∧
    Fs.exists_ (fs w) (pyinstaller_path env) = false ∧
    trace w' = trace w ++ install_ops env d e false ∧
    install_failed env (fs w) msg d e)).
Proof.
  unfold provision, call, bind, when, return_, ret.
  destruct (ensure_dependencies env w) as [c1 w1] eqn:E.
  apply ensure_dependencies_cases in E.
  destruct E as (Hq & Hb & Hs & Ho & Hw & Hl &
                 [(-> & ? & ? & ?)|[(-> & ? & ? & ? & ?)|(m & d & e & -> & ? & ? & ?)]]).
  all: intros [= <- <-]; repeat (split; [assumption|]).
  - by left.
  - right; by left.
  - right; right; by exists m, d, e.
Qed.

Lemma read_paths_spec (w : World) (c : completion unit (string * string))
    (w' : World) :
  let src := strip (source_var (tk w)) in
  let out := strip (output_var (tk w)) in
  read_paths w = (c, w') →
  quiet w w' ∧ fs w' = fs w ∧ trace w' = trace w ∧
  ((c = Normal (src, out) ∧ truthy src = true ∧ truthy out = true ∧
    Fs.exists_ (fs w) src = true ∧ queue w' = queue w) ∨
   (c = Returned tt ∧ truthy src && truthy out = false ∧
    queue w' = queue w ++
      [Error "Please select source and output folders"; Done]) ∨
   (c = Returned tt ∧ truthy src && truthy out = true ∧
    Fs.exists_ (fs w) src = false ∧
    queue w' = queue w ++
      [Error ("Source folder does not exist: " +:+ src); Done])).
Proof.
  cbv zeta. intros H. split_world w. unfold read_paths in H. norm_in H.
  run_in H. all: cbn [tk source_var output_var fs queue]. all: finish H.
Qed.

Lemma scan_spec (src : string) (w : World)
    (c : completion unit (string * bool)) (w' : World) :
  scan src w = (c, w') →
  quiet w w' ∧ fs w' = fs w ∧ trace w' = trace w ∧
  ((∃ msg, Fs.listdir (fs w) src = Fail msg ∧ c = Raised (Exception msg) ∧
    queue w' = queue w ++ scan_prefix src) ∨
   (∃ l, Fs.listdir (fs w) src = Ok l ∧ select_target src l = None ∧
    c = Returned tt ∧
    queue w' = queue w ++ scan_prefix src ++ [Error not_found_message; Done]) ∨
   (∃ l t, Fs.listdir (fs w) src = Ok l ∧ select_target src l = Some t ∧
    c = Normal t ∧
    queue w' = queue w ++ scan_prefix src ++ [found_line t; Progress 20])).
Proof.
  intros H. split_world w. unfold scan in H. norm_in H.
  run_in H. all: unfold select_target. all: finish H.
Qed.

Lemma prepare_output_spec (out : string) (w : World)
    (c : completion unit unit) (w' : World) :
  prepare_output env out w = (c, w') →
  quiet w w' ∧
  ((c = Normal tt ∧ Fs.exists_ (fs w) out = true ∧ fs w' = fs w ∧
    trace w' = trace w ∧ queue w' = queue w) ∨
   (c = Normal tt ∧ Fs.exists_ (fs w) out = false ∧
    Fs.makedirs (denied env) (fs w) out = Ok (fs w') ∧
    trace w' = trace w ++ [Makedirs out true] ∧
    queue w' = queue w ++ [Log ("Created output directory: " +:+ out)]) ∨
   (∃ msg, c = Returned tt ∧ Fs.exists_ (fs w) out = false ∧
    Fs.makedirs (denied env) (fs w) out = Fail msg ∧ fs w' = fs w ∧
    trace w' = trace w ++ [Makedirs out false] ∧
    queue w' = queue w ++
      [Error ("Could not create output directory: " +:+ msg); Done])).
Proof.
  intros H. split_world w. unfold prepare_output in H. norm_in H.
  run_in H. all: finish H.
Qed.

Lemma write_launcher_spec (src main : string) (is_python : bool) (w : World)
    (c : completion unit unit) (w' : World) :
  let p := launcher_path src in
  let text := Launcher.source is_python (basename main) in
  write_launcher env src main is_python w = (c, w') →
  quiet w w' ∧
  queue w' = queue w ++ [Log "Creating launcher script..."; Progress 40] ∧
  ((c = Normal tt ∧ Fs.write_file (denied env) (fs w) p text = Ok (fs w') ∧
    trace w' = trace w ++ [WriteFile p text true]) ∨
   (∃ msg, c = Raised (Exception msg) ∧
    Fs.write_file (denied env) (fs w) p text = Fail msg ∧ fs w' = fs w ∧
    trace w' = trace w ++ [WriteFile p text false])).
Proof.
  cbv zeta. intros H. split_world w. unfold write_launcher in H. norm_in H.
  run_in H. all: finish H.
Qed.

Lemma invoke_bundler_spec (src out : string) (w : World)
    (c : completion unit unit) (w' : World) :
  let args :=
    pyinstaller_args (launcher_path src) src out (window_var (tk w)) in
  invoke_bundler env src out w = (c, w') →
  tk w' = tk w ∧ sys_path w' = sys_path w ∧
  (∃ logs, applog w' = applog w ++ logs) ∧
  ((∃ msg, c = Raised (Exception msg) ∧ fs w' = fs w ∧
    bundled w' = bundled w ∧ trace w' = trace w ++ [Import false] ∧
    queue w' = queue w ++ [Log "Configuring PyInstaller..."; Progress 60]) ∨
   (∃ r after,
    PyInstaller_run env args (fs w) = (r, after) ∧ fs w' = after ∧
    bundled w' = bundled w ++ [(args, fs w)] ∧
    trace w' = trace w ++
      [Import true; RunBundler args (no_error r)] ∧
    queue w' = queue w ++ bundling_events (window_var (tk w)) ∧
    c = match r with None => Normal tt | Some e => Raised e end)).
Proof.
  cbv zeta. intros H. split_world w. unfold invoke_bundler in H. norm_in H.
  run_in H. all: finish H.
Qed.

Lemma clean_up_spec (src out : string) (w : World)
    (c : completion unit unit) (w' : World) :
  clean_up env src out w = (c, w') →
  c = Normal tt ∧ tk w' = tk w ∧ sys_path w' = sys_path w ∧
  bundled w' = bundled w ∧
  ∃ ops logs,
    trace w' = trace w ++ ops ∧ applog w' = applog w ++ logs ∧
    forallb is_cleanup ops = true ∧
    ((forallb succeeded ops = true ∧
      In (Remove (launcher_path src) true) ops ∧
      queue w' = queue w ++
        [Log "Cleaned up temporary files and build artifacts"; Progress 100]) ∨
     (∃ msg, forallb succeeded ops = false ∧ queue w' = queue w ∧
      In (WARNING, "Failed to clean up temporary files: " +:+ msg) logs)).
Proof.
  intros H. split_world w. unfold clean_up in H. norm_in H.
  run_in H. all: finish H.
Qed.

End Stages.

(** ** Composing the stages *)

Ltac unpack_all :=
  repeat match goal with
         | E : _ ∧ _ |- _ => destruct E
         | E : ∃ _, _ |- _ => destruct E
         | E : _ ∨ _ |- _ => destruct E
         | E : Build_Tk _ _ _ _ _ _ _ _ _ = Build_Tk _ _ _ _ _ _ _ _ _ |- _ =>
             injection E as ? ? ? ? ? ? ? ? ?
         end.

Ltac tidy H :=
  revert H; simplify_eq; intros H;
  cbv beta iota zeta delta [announce report] in H; norm_in H.

Ltac stage_with H lem :=
  let T := type of H in
  let x := scrutinee T in
  let c1 := fresh "c" in
  let w1 := fresh "w" in
  let E := fresh "Hst" in
  destruct x as [c1 w1] eqn:E;
  apply lem in E; cbv zeta in E; unfold quiet in E;
  split_world w1;
  cbn [fs queue applog sys_path tk trace bundled source_var output_var
       window_var] in E;
  unpack_all; tidy H.

Ltac run_stage H :=
  let T := type of H in
  let x := scrutinee T in
  lazymatch x with
  | T => fail
  | provision _ _ => stage_with H provision_spec
  | read_paths _ => stage_with H read_paths_spec
  | scan _ _ => stage_with H scan_spec
  | prepare_output _ _ _ => stage_with H prepare_output_spec
  | write_launcher _ _ _ _ _ => stage_with H write_launcher_spec
  | invoke_bundler _ _ _ _ => stage_with H invoke_bundler_spec
  | clean_up _ _ _ _ => stage_with H clean_up_spec
  | _ => destruct x eqn:?; tidy H
  end.

(** Runs [convert_app] in [H] stage by stage; one goal per way the run
    can end, with what it added to the queue, the trace, the log and
    the bundler calls spelled out. *)
Ltac run_pipeline H :=
  unfold convert_app in H; norm_in H; repeat run_stage H;
  injection H as <- <-;
  unfold new_events, new_ops, new_logs, new_calls;
  cbn [fs queue applog sys_path tk trace bundled fst snd source_var
       output_var window_var];
  rewrite <- ?app_assoc; rewrite ?drop_app_length, ?drop_all.

(** ** Reading the lists a run leaves behind *)

Lemma cleanup_member (ops : list sysop) (op : sysop) :
  forallb is_cleanup ops = true → In op ops → is_cleanup op = true.
Proof. intros H Hin. by apply (proj1 (forallb_forall _ _) H). Qed.

Lemma succeeded_member (ops : list sysop) (op : sysop) :
  forallb succeeded ops = true → In op ops → succeeded op = true.
Proof. intros H Hin. by apply (proj1 (forallb_forall _ _) H). Qed.

(** Unfolds the event and call lists of a run down to their elements. *)
Ltac spell_in Hm :=
  unfold scan_prefix, bundling_events, found_line, install_ops in Hm;
  repeat match type of Hm with
         | context [if ?b then _ else _] => destruct b
         end;
  cbn [app In] in Hm.

(** Closes a goal whose hypothesis puts an element in a list that does not
    hold it. *)
Ltac not_there Hm :=
  exfalso; spell_in Hm;
  repeat (destruct Hm as [Hm|Hm]; [discriminate Hm|]); exact Hm.

(** Case analysis on where in a list an element sits: one goal per
    element it can be equal to, one per list that is not spelled out. *)
Ltac walk Hin :=
  lazymatch type of Hin with
  | In _ (_ ++ _) => apply in_app_or in Hin as [Hin|Hin]; walk Hin
  | In _ (_ :: _) =>
      apply in_inv in Hin as [Hin|Hin]; [try discriminate Hin | walk Hin]
  | In _ [] => destruct Hin
  | In _ (if ?b then _ else _) => destruct b; walk Hin
  | In _ (scan_prefix _) => unfold scan_prefix in Hin; walk Hin
  | In _ (bundling_events _) => unfold bundling_events in Hin; walk Hin
  | In _ (install_ops _ _ _ _) => unfold install_ops in Hin; walk Hin
  | _ => idtac
  end.

(** Membership in a list that is spelled out. *)
Ltac here :=
  unfold scan_prefix, bundling_events, found_line;
  repeat first [ eassumption | apply in_eq | apply in_cons
               | apply in_or_app; first [left; solve [here] | right] ].

Lemma snoc3 {A : Type} (l : list A) (a b c : A) :
  ((l ++ [a]) ++ [b]) ++ [c] = l ++ [a; b; c].
Proof. by rewrite <- !app_assoc. Qed.

Lemma filter_none (P : string → bool) (l : list string) :
  Forall (λ x, P x = false) l → List.filter P l = [].
Proof.
  induction 1 as [|x l Hx _ IH]; [done|]. cbn. by rewrite Hx.
Qed.

Lemma filter_first (P : string → bool) (l : list string) (n : string) :
  first_match P l n → ∃ rest, List.filter P l = n :: rest.
Proof.
  intros (pre & post & -> & Hn & Hpre).
  rewrite List.filter_app, (filter_none _ _ Hpre). cbn. rewrite Hn. eauto.
Qed.

Lemma first_of_filter (P : string → bool) (l : list string) (n : string)
    (rest : list string) :
  List.filter P l = n :: rest → first_match P l n.
Proof.
  induction l as [|x l IH]; [done|]. cbn. destruct (P x) eqn:Hx.
  - intros [= -> _]. by exists [], l.
  - intros (pre & post & -> & ? & ?)%IH.
    exists (x :: pre), post. repeat split; [done|]. by constructor.
Qed.

(** * The claims *)

(** Case analysis on the flags the goal still branches on. *)
Ltac split_flag :=
  repeat match goal with
         | |- context [if ?b then _ else _] => destruct b
         end.

Ltac drop_cleanup :=
  try match goal with
      | Hk : forallb is_cleanup ?ops = true, Hi : In _ ?ops |- _ =>
          apply (cleanup_member _ _ Hk) in Hi; discriminate Hi
      end.

Section Claims.
Variable env : Env.
Import PyStr OsPath Launcher.

(** ** The scanner *)

(** What the rest of a run shows of the scanner's choice. *)
Lemma scanner_reports (w : World) (l : list string) :
  let r := convert_app env w in
  let src := strip (source_var (tk w)) in
  In (Progress 0) (new_events w r.2) →
  Fs.listdir (fs w) src = Ok l →
  match select_target src l with
  | Some t =>
      In (found_line t) (new_events w r.2) ∧
      ∀ p text ok, In (WriteFile p text ok) (new_ops w r.2) →
                   text = Launcher.source t.2 (basename t.1)
  | None =>
      r.1 = Returned tt ∧
      new_events w r.2 =
        scan_prefix src ++ [Error not_found_message; Done; Done] ∧
      new_ops w r.2 = [] ∧ new_calls w r.2 = [] ∧ fs r.2 = fs w
  end.
Proof.
  cbv zeta. destruct (convert_app env w) as [c w'] eqn:H.
  split_world w. run_pipeline H.
  all: intros Hp Hl; try (not_there Hp); try congruence.
  all: match goal with
       | Hk : Fs.listdir _ _ = Ok ?k |- _ =>
           rewrite Hl in Hk; injection Hk as <-
       end.
  all: match goal with Hs : select_target _ _ = _ |- _ => rewrite Hs end.
  all: try done.
  all: split; [here|].
  all: intros p text ok Hin; walk Hin; drop_cleanup;
    by injection Hin as _ <- _.
Qed.

Lemma select_exe (src : string) (l : list string) (n : string) :
  first_match is_exe l n → select_target src l = Some (join src n, false).
Proof.
  intros [rest Hf]%filter_first. unfold select_target, exe_files.
  fold is_exe. by rewrite Hf.
Qed.

Lemma select_py (src : string) (l : list string) (n : string) :
  Forall (λ f, is_exe f = false) l → first_match is_py l n →
  select_target src l = Some (join src n, true).
Proof.
  intros He%filter_none [rest Hf]%filter_first.
  unfold select_target, exe_files, py_files. fold is_exe is_py.
  by rewrite He, Hf.
Qed.

Lemma select_none (src : string) (l : list string) :
  Forall (λ f, is_exe f = false) l → Forall (λ f, is_py f = false) l →
  select_target src l = None.
Proof.
  intros He%filter_none Hp%filter_none.
  unfold select_target, exe_files, py_files. fold is_exe is_py.
  by rewrite He, Hp.
Qed.

(** C2: in a run that reaches the scanner on a source directory with
    listing [l], an entry ending in [.exe] is taken before any entry
    ending in [.py]; of several entries of one kind the first in
    listing order is taken; and with no entry of either kind the run
    posts the not-found error and stops there: no directory is made,
    no stub is written, the bundler is not called, the file system is
    as it was. *)
Theorem scanner_policy (w : World) (l : list string) :
  let r := convert_app env w in
  let src := strip (source_var (tk w)) in
  In (Progress 0) (new_events w r.2) →
  Fs.listdir (fs w) src = Ok l →
  (∀ n, first_match is_exe l n →
        In (Log ("Found EXE file: " +:+ join src n)) (new_events w r.2) ∧
        ∀ p text ok, In (WriteFile p text ok) (new_ops w r.2) →
                     text = Launcher.source false (basename (join src n))) ∧
  (∀ n, Forall (λ f, is_exe f = false) l → first_match is_py l n →
        In (Log ("Found Python file: " +:+ join src n)) (new_events w r.2) ∧
        ∀ p text ok, In (WriteFile p text ok) (new_ops w r.2) →
                     text = Launcher.source true (basename (join src n))) ∧
  (Forall (λ f, is_exe f = false) l → Forall (λ f, is_py f = false) l →
   r.1 = Returned tt ∧
   In (Error "No EXE or Python files found in source folder")
      (new_events w r.2) ∧
   ¬ In (Progress 20) (new_events w r.2) ∧
   new_ops w r.2 = [] ∧ new_calls w r.2 = [] ∧ fs r.2 = fs w).
Proof.
  cbv zeta. intros Hp Hl.
  pose proof (scanner_reports w l Hp Hl) as Hr. cbv zeta in Hr.
  split; [|split].
  - intros n Hn. by rewrite (select_exe _ _ _ Hn) in Hr.
  - intros n He Hn. by rewrite (select_py _ _ _ He Hn) in Hr.
  - intros He Hy. rewrite (select_none _ _ He Hy) in Hr.
    destruct Hr as (Hc & Hev & Ho & Hb & Hf). rewrite Hev.
    repeat split; try done.
    + here.
    + intros Hin. not_there Hin.
Qed.

(** C10: the scanner looks at names only.  An entry of the listing
    that is a subdirectory is a candidate as soon as its name ends in
    [.exe] or [.py], and it is the discovered target when it is the
    first of its kind (and, for [.py], no [.exe] entry exists). *)
Theorem scanner_ignores_entry_type (w : World) (l : list string)
    (n : string) (entries : list string) :
  let r := convert_app env w in
  let src := strip (source_var (tk w)) in
  In (Progress 0) (new_events w r.2) →
  Fs.listdir (fs w) src = Ok l →
  fs w !! resolve (join src n) = Some (Fs.Dir entries) →
  In n l →
  (is_exe n = true → In n (exe_files l)) ∧
  (is_py n = true → In n (py_files l)) ∧
  (first_match is_exe l n →
   In (Log ("Found EXE file: " +:+ join src n)) (new_events w r.2) ∧
   ∀ p text ok, In (WriteFile p text ok) (new_ops w r.2) →
                text = Launcher.source false (basename (join src n))) ∧
  (Forall (λ f, is_exe f = false) l → first_match is_py l n →
   In (Log ("Found Python file: " +:+ join src n)) (new_events w r.2) ∧
   ∀ p text ok, In (WriteFile p text ok) (new_ops w r.2) →
                text = Launcher.source true (basename (join src n))).
Proof.
  cbv zeta. intros Hp Hl _ Hin.
  pose proof (scanner_reports w l Hp Hl) as Hr. cbv zeta in Hr.
  split; [|split; [|split]].
  - intros Hn. by apply filter_In.
  - intros Hn. by apply filter_In.
  - intros Hn. by rewrite (select_exe _ _ _ Hn) in Hr.
  - intros He Hn. by rewrite (select_py _ _ _ He Hn) in Hr.
Qed.

(** ** The launcher text *)


(** ** The bundler call *)

Lemma add_data_is_no_flag (src : string) : src +:+ "/*;." ≠ "--windowed".
Proof.
  intros E. apply (f_equal (λ s, endswith s "/*;.")) in E.
  by rewrite endswith_app in E.
Qed.

(** C5: every call of the bundler a run makes carries the stub path
    first, the single-file flag, the distribution directory, the work
    directory [build] under it and the data spec of the source
    directory; after these ten arguments comes the windowed flag when
    window mode is on and nothing when it is off. *)
Theorem bundler_arguments (w : World) (args : list string) (ok : bool) :
  let r := convert_app env w in
  let src := strip (source_var (tk w)) in
  let out := strip (output_var (tk w)) in
  In (RunBundler args ok) (new_ops w r.2) →
  args = pyinstaller_args (launcher_path src) src out (window_var (tk w)) ∧
  head args = Some (launcher_path src) ∧
  In "--onefile" args ∧
  follows "--distpath" out args ∧
  follows "--workpath" (join out "build") args ∧
  follows "--add-data" (src +:+ "/*;.") args ∧
  drop 10 args = (if window_var (tk w) then ["--windowed"] else []) ∧
  (List.last args EmptyString = "--windowed" ↔ window_var (tk w) = true).
Proof.
  cbv zeta. destruct (convert_app env w) as [c w'] eqn:H.
  split_world w. run_pipeline H.
  all: intros Hin; walk Hin; drop_cleanup.
  all: injection Hin as <- _; split; [reflexivity|].
  all: unfold pyinstaller_args; cbn [app head drop].
  all: split; [reflexivity|].
  all: split; [do 7 apply in_cons; apply in_eq|].
  all: split; [by eexists [_], _|].
  all: split; [by eexists [_; _; _], _|].
  all: split; [by eexists [_; _; _; _; _; _; _; _], _|].
  all: split; [reflexivity|].
  all: split_flag; cbn; split; try done.
  all: intros E; by apply add_data_is_no_flag in E.
Qed.

(** ** The provisioner *)

Lemma installed_or_failed (f f' : Fs.t) (msg : string) (d e : bool) :
  installed env f f' → install_failed env f msg d e → False.
Proof.
  intros (f1 & f2 & H1 & H2 & H3).
  destruct d, e; unfold install_failed; intros; unpack_all; congruence.
Qed.

Lemma failed_once (f : Fs.t) (m m' : string) (d e d' e' : bool) :
  install_failed env f m d e → install_failed env f m' d' e' → m = m'.
Proof.
  destruct d, e, d', e'; unfold install_failed; intros; unpack_all;
    congruence.
Qed.

(** The three ways [ensure_dependencies] ends, told apart by what it
    found and what the install did. *)
Lemma provisioner_result (w : World) :
  let r := ensure_dependencies env w in
  let absent := Fs.exists_ (fs w) (pyinstaller_path env) = false in
  (r.1 = Returned true ↔ absent ∧ installed env (fs w) (fs r.2)) ∧
  (r.1 = Returned true →
   new_ops w r.2 =
     [ Download (url pyinstaller_info) (temp_archive env) true;
       Extract (temp_archive env) (pyinstaller_path env) true;
       Remove (temp_archive env) true ]) ∧
  (r.1 = Returned false ↔ ¬ absent) ∧
  (∀ msg d e, absent → install_failed env (fs w) msg d e →
              r.1 = Raised (Exception msg)).
Proof.
  cbv zeta. destruct (ensure_dependencies env w) as [c w'] eqn:E.
  apply ensure_dependencies_cases in E. cbn [fst snd].
  destruct E as (_ & _ & _ & _ & _ & _ &
    [(-> & Hp & Hf & Ht)
    |[(-> & Ha & Ht & _ & Hi)|(m & d & e & -> & Ha & Ht & Hi)]]).
  all: split; [split; [intros Hc | intros [Ha' Hi']]
              | split; [intros Hc
                       | split; [split; [intros Hc | intros Hn]
                                | intros msg d' e' Ha' Hx]]].
  all: try done; try congruence.
  all: try match goal with
           | Hx : installed _ _ _, Hy : install_failed _ _ _ _ _ |- _ =>
               destruct (installed_or_failed _ _ _ _ _ Hx Hy)
           end.
  - unfold new_ops. by rewrite Ht, drop_app_length.
  - by rewrite (failed_once _ _ _ _ _ _ _ Hi Hx).
Qed.

(** What [convert_app] makes of the provisioner's answer. *)
Lemma provisioner_in_pipeline (w : World) :
  let r := convert_app env w in
  let absent := Fs.exists_ (fs w) (pyinstaller_path env) = false in
  (absent → (∃ f, installed env (fs w) f) →
   r.1 = Returned tt ∧ new_events w r.2 = [Done] ∧
   new_ops w r.2 =
     [ Download (url pyinstaller_info) (temp_archive env) true;
       Extract (temp_archive env) (pyinstaller_path env) true;
       Remove (temp_archive env) true ]) ∧
  (∀ msg d e, absent → install_failed env (fs w) msg d e →
     r.1 = Normal tt ∧
     new_events w r.2 =
       [ Log ("ERROR: " +:+ "An error occurred: " +:+ msg);
         Error ("An error occurred: " +:+ msg); Done ]).
Proof.
  cbv zeta. destruct (convert_app env w) as [c w'] eqn:H.
  split_world w. run_pipeline H.
  all: split; [intros Ha [f Hi] | intros msg' d' e' Ha Hi].
  all: try congruence.
  all: try match goal with
           | Hx : installed _ _ _, Hy : install_failed _ _ _ _ _ |- _ =>
               destruct (installed_or_failed _ _ _ _ _ Hx Hy)
           end.
  all: try done.
  all: match goal with
       | Hx : install_failed _ _ ?m _ _, Hy : install_failed _ _ ?m' _ _ |- _ =>
           rewrite (failed_once _ _ _ _ _ _ _ Hx Hy)
       end.
  all: done.
Qed.

(** C6: [ensure_dependencies] returns true exactly when the bundler
    was absent and this call installed it: the archive downloaded to
    the temporary file, extracted to the install path, the temporary
    file deleted, in this order.  It returns false exactly when the
    bundler was present.  A failure of the download, the extraction
    or the deletion is raised to the caller.  In [convert_app] an
    install ends the run with the lone [done] event, before the
    scanner; a failed install ends it with the error event. *)
Theorem provisioner_contract (w : World) :
  let r := ensure_dependencies env w in
  let run := convert_app env w in
  let absent := Fs.exists_ (fs w) (pyinstaller_path env) = false in
  ((r.1 = Returned true ↔ absent ∧ installed env (fs w) (fs r.2)) ∧
   (r.1 = Returned true →
    new_ops w r.2 =
      [ Download (url pyinstaller_info) (temp_archive env) true;
        Extract (temp_archive env) (pyinstaller_path env) true;
        Remove (temp_archive env) true ]) ∧
   (r.1 = Returned false ↔ ¬ absent) ∧
   (∀ msg d e, absent → install_failed env (fs w) msg d e →
               r.1 = Raised (Exception msg))) ∧
  ((absent → (∃ f, installed env (fs w) f) →
    run.1 = Returned tt ∧ new_events w run.2 = [Done] ∧
    new_ops w run.2 =
      [ Download (url pyinstaller_info) (temp_archive env) true;
        Extract (temp_archive env) (pyinstaller_path env) true;
        Remove (temp_archive env) true ]) ∧
   (∀ msg d e, absent → install_failed env (fs w) msg d e →
      run.1 = Normal tt ∧
      new_events w run.2 =
        [ Log ("ERROR: " +:+ "An error occurred: " +:+ msg);
          Error ("An error occurred: " +:+ msg); Done ])).
Proof.
  cbv zeta. split.
  - apply (provisioner_result w).
  - apply (provisioner_in_pipeline w).
Qed.

(** ** Progress, success and cleanup *)


(** C8: in a run whose bundler call succeeded and in which a deletion
    of the cleanup failed, the failure is written to the log at
    level WARNING, the run ends normally with the success event and
    [done], and no error event is posted. *)
Theorem cleanup_failure_is_warning (w : World) (args : list string)
    (op : sysop) :
  let r := convert_app env w in
  let out := strip (output_var (tk w)) in
  In (RunBundler args true) (new_ops w r.2) →
  In op (new_ops w r.2) → is_cleanup op = true → succeeded op = false →
  r.1 = Normal tt ∧
  (∃ msg, In (WARNING, "Failed to clean up temporary files: " +:+ msg)
             (new_logs w r.2)) ∧
  (∃ pre, new_events w r.2 =
          pre ++ [ Log "Conversion completed successfully!";
                   Success (success_message out); Done ]) ∧
  (∀ m, ¬ In (Error m) (new_events w r.2)).
Proof.
  cbv zeta. destruct (convert_app env w) as [c w'] eqn:H.
  split_world w. run_pipeline H.
  all: intros Hb Hop Hc Hs; walk Hb; drop_cleanup.
  all: walk Hop; try (subst op; discriminate Hc).
  all: try match goal with
           | Hk : forallb succeeded ?ops = true, Hi : In _ ?ops |- _ =>
               apply (succeeded_member _ _ Hk) in Hi; congruence
           end.
  all: split; [reflexivity|].
  all: split; [eexists; here|].
  all: split; [eexists; rewrite !app_assoc, snoc3; reflexivity|].
  all: intros m Hm; not_there Hm.
Qed.

(** ** Where the stub goes *)



(** ** The [done] event and the stub, in general *)

(** A run posts [done] once, except when it stops at one of its own
    checks (missing paths, missing source folder, no target, output
    directory not creatable): then it posts it twice. *)
Lemma done_count (w : World) :
  let r := convert_app env w in
  let n := length (List.filter is_done (new_events w r.2)) in
  (n = 1 ∨ n = 2) ∧
  (n = 2 ↔ r.1 = Returned tt ∧ ∃ m, In (Error m) (new_events w r.2)).
Proof.
  cbv zeta. destruct (convert_app env w) as [c w'] eqn:H.
  split_world w. run_pipeline H.
  all: unfold scan_prefix, bundling_events, found_line;
    split_flag; cbn [app List.filter is_done length].
  all: split; [auto|]; split;
    [ first [discriminate | intros _; split; [reflexivity|eexists; here]]
    | intros [Hc [m Hm]];
      first [reflexivity | discriminate Hc | not_there Hm] ].
Qed.

(** The cleanup is reached only through a successful bundler call: a
    run without one attempts no deletion in the source or output
    directory, whatever it wrote before. *)
Lemma no_cleanup_without_bundle (w : World) (op : sysop) :
  let r := convert_app env w in
  (∀ args, ¬ In (RunBundler args true) (new_ops w r.2)) →
  In op (new_ops w r.2) → is_cleanup op = true →
  op = Remove (temp_archive env) true ∨ op = Remove (temp_archive env) false.
Proof.
  cbv zeta. destruct (convert_app env w) as [c w'] eqn:H.
  split_world w. run_pipeline H.
  all: intros Hno Hop Hc.
  all: try (exfalso;
            match type of Hno with
            | ∀ a, ¬ In _ ?l =>
                match l with
                | context [RunBundler ?a true] => apply (Hno a); solve [here]
                end
            end).
  all: walk Hop; try (subst op; discriminate Hc); subst; auto.
Qed.

End Claims.

(** * Runs on the small disk *)

Section Runs.
Import PyStr OsPath Examples.

Ltac pick := repeat first [ reflexivity | left; reflexivity | right ].

(** C1, at the failing input: with a blank source path the run posts
    [done] twice.  The poll that follows stops at the first one, so
    the second stays queued; the first poll of the next conversion
    takes it for the end of that conversion and re-enables the start
    button before the worker has run. *)
Theorem blank_source_posts_done_twice :
  let w1 := pressed w_blank in
  let w2 := worked env_ready w1 in
  let w3 := polled w2 in
  let w4 := polled (pressed w3) in
  new_events w1 w2 =
    [Error "Please select source and output folders"; Done; Done] ∧
  length (List.filter is_done (new_events w1 w2)) = 2 ∧
  queue w3 = [Done] ∧
  is_converting (tk (pressed w3)) = true ∧
  is_converting (tk w4) = false ∧ button_enabled (tk w4) = true ∧
  queue w4 = [] ∧ trace w4 = [].
Proof. vm_compute. repeat split. Qed.

(** C3, at the failing input: the bundler raises after the stub was
    written.  The run reports the error and deletes nothing: the stub
    is still in the source directory at the end, listed next to the
    user's files. *)
Theorem stub_survives_bundler_failure :
  let r := convert_app env_bundler_fails w_app in
  let stub := "C:\app\launcher.py" in
  new_ops w_app r.2 =
    [ WriteFile stub (Launcher.source true "app.py") true;
      Import true;
      RunBundler (pyinstaller_args stub "C:\app" "C:\out" false) false ] ∧
  In (Error "An error occurred: PyInstaller exited with status 1")
     (new_events w_app r.2) ∧
  Fs.exists_ (fs w_app) stub = false ∧
  Fs.exists_ (fs r.2) stub = true ∧
  Fs.listdir (fs r.2) "C:\app" = Ok ["app.py"; "data.txt"; "launcher.py"].
Proof. vm_compute. repeat split. pick. Qed.

Lemma scanner_policy_witness :
  In (Progress 0) (new_events w_mix (convert_app env_ready w_mix).2) ∧
  Fs.listdir (fs w_mix) "C:\mix" = Ok ["a.py"; "tool.exe"; "b.exe"] ∧
  first_match is_exe ["a.py"; "tool.exe"; "b.exe"] "tool.exe" ∧
  In (Log "Found EXE file: C:\mix\tool.exe")
     (new_events w_mix (convert_app env_ready w_mix).2).
Proof.
  assert (In (Progress 0) (new_events w_mix (convert_app env_ready w_mix).2))
    as Hp by (vm_compute; pick).
  assert (Fs.listdir (fs w_mix) (strip (source_var (tk w_mix))) =
          Ok ["a.py"; "tool.exe"; "b.exe"]) as Hl by (vm_compute; reflexivity).
  assert (first_match is_exe ["a.py"; "tool.exe"; "b.exe"] "tool.exe") as Hf.
  { exists ["a.py"], ["b.exe"]. split; [reflexivity|].
    split; [reflexivity|]. repeat constructor. }
  split; [exact Hp|]. split; [exact Hl|]. split; [exact Hf|].
  exact (proj1 (proj1 (scanner_policy env_ready w_mix _ Hp Hl) _ Hf)).
Defined.

Lemma scanner_ignores_entry_type_witness :
  fs w_proj !! resolve "C:\proj\plugin.py" = Some (Fs.Dir ["__init__.py"]) ∧
  In "plugin.py" (py_files ["notes.txt"; "plugin.py"]) ∧
  In (Log "Found Python file: C:\proj\plugin.py")
     (new_events w_proj (convert_app env_ready w_proj).2).
Proof.
  assert (In (Progress 0) (new_events w_proj (convert_app env_ready w_proj).2))
    as Hp by (vm_compute; pick).
  assert (Fs.listdir (fs w_proj) (strip (source_var (tk w_proj))) =
          Ok ["notes.txt"; "plugin.py"]) as Hl by (vm_compute; reflexivity).
  assert (fs w_proj !! resolve (join (strip (source_var (tk w_proj))) "plugin.py")
          = Some (Fs.Dir ["__init__.py"])) as Hd by (vm_compute; reflexivity).
  assert (In "plugin.py" ["notes.txt"; "plugin.py"]) as Hin by (right; by left).
  assert (Forall (λ f, is_exe f = false) ["notes.txt"; "plugin.py"]) as He
    by (repeat constructor).
  assert (first_match is_py ["notes.txt"; "plugin.py"] "plugin.py") as Hf.
  { exists ["notes.txt"], []. split; [reflexivity|].
    split; [reflexivity|]. repeat constructor. }
  pose proof (scanner_ignores_entry_type env_ready w_proj _ "plugin.py" _
                Hp Hl Hd Hin) as (_ & Hc & _ & Hy).
  split; [exact Hd|]. split; [exact (Hc eq_refl)|].
  exact (proj1 (Hy He Hf)).
Defined.

Lemma bundler_arguments_witness :
  In (RunBundler
        [ "C:\app\launcher.py"; "--distpath"; "C:\out"; "--workpath";
          "C:\out\build"; "--specpath"; "C:\out"; "--onefile";
          "--add-data"; "C:\app/*;."; "--windowed" ] true)
     (new_ops w_windowed (convert_app env_ready w_windowed).2) ∧
  List.last
    [ "C:\app\launcher.py"; "--distpath"; "C:\out"; "--workpath";
      "C:\out\build"; "--specpath"; "C:\out"; "--onefile";
      "--add-data"; "C:\app/*;."; "--windowed" ] EmptyString = "--windowed".
Proof.
  assert (In (RunBundler
        [ "C:\app\launcher.py"; "--distpath"; "C:\out"; "--workpath";
          "C:\out\build"; "--specpath"; "C:\out"; "--onefile";
          "--add-data"; "C:\app/*;."; "--windowed" ] true)
     (new_ops w_windowed (convert_app env_ready w_windowed).2)) as Hin
    by (vm_compute; pick).
  split; [exact Hin|].
  pose proof (bundler_arguments env_ready w_windowed _ _ Hin)
    as (_ & _ & _ & _ & _ & _ & _ & Hlast).
  exact (proj2 Hlast eq_refl).
Defined.


Lemma cleanup_failure_is_warning_witness :
  In (Remove "C:\out\launcher.spec" false)
     (new_ops w_app (convert_app env_locked_spec w_app).2) ∧
  (convert_app env_locked_spec w_app).1 = Normal tt ∧
  ∃ msg, In (WARNING, "Failed to clean up temporary files: " +:+ msg)
            (new_logs w_app (convert_app env_locked_spec w_app).2).
Proof.
  assert (In (RunBundler
                (pyinstaller_args "C:\app\launcher.py" "C:\app" "C:\out" false)
                true)
             (new_ops w_app (convert_app env_locked_spec w_app).2)) as Hb
    by (vm_compute; pick).
  assert (In (Remove "C:\out\launcher.spec" false)
             (new_ops w_app (convert_app env_locked_spec w_app).2)) as Hop
    by (vm_compute; pick).
  pose proof (cleanup_failure_is_warning env_locked_spec w_app _ _ Hb Hop
                eq_refl eq_refl) as (Hc & Hw & _).
  split; [exact Hop|]. split; [exact Hc|exact Hw].
Defined.

(** ** More runs *)

(** The provisioner on a disk without the bundler: download, extract,
    delete the archive, and the conversion ends there with the lone
    [done]; on the disk that has the bundler nothing is fetched. *)
Lemma first_run_installs_the_bundler :
  let r := convert_app env_ready w_fresh in
  (ensure_dependencies env_ready w_fresh).1 = Returned true ∧
  (ensure_dependencies env_ready w_app).1 = Returned false ∧
  new_ops w_fresh r.2 =
    [ Download (url pyinstaller_info) "C:\tmp\pyinstaller.tar.gz" true;
      Extract "C:\tmp\pyinstaller.tar.gz"
              "C:\tool\dependencies\pyinstaller-5.13.0" true;
      Remove "C:\tmp\pyinstaller.tar.gz" true ] ∧
  new_events w_fresh r.2 = [Done] ∧
  Fs.exists_ (fs w_fresh) "C:\tool\dependencies\pyinstaller-5.13.0" = false ∧
  Fs.exists_ (fs r.2) "C:\tool\dependencies\pyinstaller-5.13.0" = true ∧
  Fs.exists_ (fs r.2) "C:\tmp\pyinstaller.tar.gz" = false.
Proof. vm_compute. repeat split. Qed.

(** A source directory with neither kind of file: the error is
    posted and no outside call is made. *)
Lemma bare_directory_has_no_target :
  let r := convert_app env_ready w_bare in
  select_target "C:\bare" ["readme.txt"] = None ∧
  new_events w_bare r.2 =
    scan_prefix "C:\bare" ++ [Error not_found_message; Done; Done] ∧
  new_ops w_bare r.2 = [] ∧ new_calls w_bare r.2 = [] ∧
  Fs.listdir (fs r.2) "C:\bare" = Ok ["readme.txt"].
Proof. vm_compute. repeat split. Qed.

(** The bundler sees the stub among the files of the source
    directory, and the stub is gone once the run has succeeded. *)
Lemma stub_is_bundled_with_the_source :
  let r := convert_app env_ready w_app in
  let stub := "C:\app\launcher.py" in
  map fst (new_calls w_app r.2) =
    [pyinstaller_args stub "C:\app" "C:\out" false] ∧
  map (λ c, c.2 !! resolve stub) (new_calls w_app r.2) =
    [Some (Fs.File (Launcher.source true "app.py"))] ∧
  map (λ c, Fs.glob_star c.2 "C:\app") (new_calls w_app r.2) =
    [["C:\app\app.py"; "C:\app\data.txt"; "C:\app\launcher.py"]] ∧
  Fs.exists_ (fs r.2) stub = false ∧
  Fs.exists_ (fs r.2) "C:\out\launcher.exe" = true.
Proof. vm_compute. repeat split. Qed.

End Runs.

(** * The relay consumer *)

Ltac step_loop :=
  cbv beta iota zeta delta
    [bind ret return_ raise when modify reads logger self_log update_progress
     window_after messagebox
     set_fs set_queue set_applog set_sys_path set_tk set_trace set_bundled
     tk_console tk_timers tk_progress tk_dialogs tk_converting];
  cbn [fs queue applog sys_path tk trace bundled
       source_var output_var window_var is_converting button_enabled console
       progress_var dialogs timers fst snd].

Ltac use_loop IH :=
  match goal with
  | |- context [check_queue_loop _ ?w1] =>
      specialize (IH w1);
      cbn [fs queue applog sys_path tk trace bundled
           source_var output_var window_var is_converting button_enabled
           console progress_var dialogs timers fst snd] in IH
  end.

Lemma last_after {A : Type} (l : list A) (v d : A) :
  List.last (v :: l) d = List.last l v.
Proof.
  revert v d. induction l as [|a l IH]; intros v d; [done|].
  change (List.last (v :: a :: l) d) with (List.last (a :: l) d).
  by rewrite (IH a d), (IH a v).
Qed.

Ltac use_each IH :=
  repeat match type of IH with
         | _ ∧ _ =>
             let E := fresh "E" in destruct IH as [E IH]; rewrite E; clear E
         end;
  rewrite IH; clear IH.

(** What one pass of the loop leaves untouched, and what it shows. *)
Lemma check_queue_loop_shows (q : list event) (w : World) :
  let r := check_queue_loop q w in
  fs r.2 = fs w ∧ trace r.2 = trace w ∧ sys_path r.2 = sys_path w ∧
  bundled r.2 = bundled w ∧
  source_var (tk r.2) = source_var (tk w) ∧
  output_var (tk r.2) = output_var (tk w) ∧
  window_var (tk r.2) = window_var (tk w) ∧
  console (tk r.2) = console (tk w) ++ console_lines (before_done q) ∧
  dialogs (tk r.2) = dialogs (tk w) ++ dialogs_of (before_done q) ∧
  progress_var (tk r.2) =
    List.last (progress_values (before_done q)) (progress_var (tk w)).
Proof.
  cbv zeta. revert w. induction q as [|ev q IH]; intros w.
  - split_world w. cbn [check_queue_loop]. step_loop.
    match goal with |- context [if ?b then _ else _] => destruct b end;
      cbn; rewrite ?app_nil_r; repeat split.
  - split_world w. cbn [check_queue_loop]. destruct ev; step_loop.
    5: { cbn. rewrite ?app_nil_r. repeat split. }
    all: use_loop IH; use_each IH.
    all: cbn [before_done]; unfold console_lines, dialogs_of, progress_values;
      cbn [omap list_omap]; fold progress_values.
    all: rewrite <- ?app_assoc, ?last_after; repeat split.
Qed.

Lemma check_queue_loop_done (pre post : list event) (w : World) :
  Forall (λ e, is_done e = false) pre →
  let r := check_queue_loop (pre ++ Done :: post) w in
  r.1 = Returned tt ∧ queue r.2 = post ∧
  is_converting (tk r.2) = false ∧ button_enabled (tk r.2) = true ∧
  timers (tk r.2) = timers (tk w).
Proof.
  cbv zeta. intros Hpre. revert w.
  induction Hpre as [|ev pre Hev _ IH]; intros w.
  - split_world w. cbn [app check_queue_loop]. step_loop. repeat split.
  - split_world w. cbn [app check_queue_loop].
    destruct ev; try discriminate Hev; step_loop.
    all: use_loop IH; use_each IH.
    all: repeat split.
Qed.

Lemma check_queue_loop_empty (q : list event) (w : World) :
  Forall (λ e, is_done e = false) q →
  let r := check_queue_loop q w in
  r.1 = Normal tt ∧ queue r.2 = (match q with [] => queue w | _ => [] end) ∧
  is_converting (tk r.2) = is_converting (tk w) ∧
  button_enabled (tk r.2) = button_enabled (tk w) ∧
  timers (tk r.2) =
    timers (tk w) ++ (if is_converting (tk w) then [(100, CheckQueue)] else []).
Proof.
  cbv zeta. intros Hq. revert w.
  induction Hq as [|ev q Hev _ IH]; intros w.
  - split_world w. cbn [check_queue_loop]. step_loop.
    match goal with |- context [if ?b then _ else _] => destruct b end;
      cbn; rewrite ?app_nil_r; repeat split.
  - split_world w. cbn [check_queue_loop].
    destruct ev; try discriminate Hev; step_loop.
    all: use_loop IH; use_each IH.
    all: repeat split; by destruct q.
Qed.

(** X10: a poll handles the events ahead of the first [done], takes that
    [done] off the queue and stops: the conversion is over, the button
    is back, no further poll is scheduled, and what was queued behind
    the [done] stays queued. *)
Theorem check_queue_stops_at_done (w : World) (pre post : list event) :
  queue w = pre ++ Done :: post →
  Forall (λ e, is_done e = false) pre →
  let r := check_queue w in
  r.1 = Returned tt ∧ queue r.2 = post ∧
  is_converting (tk r.2) = false ∧ button_enabled (tk r.2) = true ∧
  timers (tk r.2) = timers (tk w).
Proof.
  intros Hq Hpre. unfold check_queue. rewrite Hq.
  by apply check_queue_loop_done.
Qed.

(** X11: a poll that finds no [done] empties the queue, leaves the button
    as it is and schedules the next poll in 100 ms exactly when a
    conversion is running. *)
Theorem check_queue_polls_again (w : World) :
  Forall (λ e, is_done e = false) (queue w) →
  let r := check_queue w in
  r.1 = Normal tt ∧ queue r.2 = [] ∧
  is_converting (tk r.2) = is_converting (tk w) ∧
  button_enabled (tk r.2) = button_enabled (tk w) ∧
  timers (tk r.2) =
    timers (tk w) ++ (if is_converting (tk w) then [(100, CheckQueue)] else []).
Proof.
  intros Hq. cbv zeta. unfold check_queue.
  destruct (check_queue_loop_empty _ w Hq) as (H1 & H2 & H3 & H4 & H5).
  repeat split; try done. rewrite H2. by destruct (queue w).
Qed.

(** X12: what a poll shows of the events ahead of the first [done]: one
    console line per log event, one dialog per error or success event,
    all in queue order, and the progress bar at the last progress
    value; it touches neither the file system nor the form's paths. *)
Theorem check_queue_display (w : World) :
  let r := check_queue w in
  let shown := before_done (queue w) in
  console (tk r.2) = console (tk w) ++ console_lines shown ∧
  dialogs (tk r.2) = dialogs (tk w) ++ dialogs_of shown ∧
  progress_var (tk r.2) =
    List.last (progress_values shown) (progress_var (tk w)) ∧
  fs r.2 = fs w ∧ trace r.2 = trace w ∧
  source_var (tk r.2) = source_var (tk w) ∧
  output_var (tk r.2) = output_var (tk w) ∧
  window_var (tk r.2) = window_var (tk w).
Proof.
  cbv zeta. unfold check_queue.
  destruct (check_queue_loop_shows (queue w) w)
    as (? & ? & ? & ? & ? & ? & ? & ? & ? & ?).
  repeat split; done.
Qed.

(** * More of the file system *)

Section MoreFsFacts.
Import PyStr OsPath Fs.

Lemma del_entry_absent (parent k : list string) (n : string) (f : Fs.t) :
  f !! k = None → del_entry parent n f !! k = None.
Proof.
  intros Hk. unfold del_entry.
  destruct (f !! parent) as [[c|es]|] eqn:E; try done.
  rewrite lookup_insert_ne; [done|]. intros ->. congruence.
Qed.

Lemma unlink_absent (k' k : list string) (f : Fs.t) :
  f !! k = None → unlink k' f !! k = None.
Proof.
  intros Hk. unfold unlink. destruct (split_last k') as [[parent n]|]; [|done].
  by apply del_entry_absent.
Qed.

Lemma remove_absent (d : string → bool) (f f' : Fs.t) (p : string)
    (k : list string) :
  remove d f p = Ok f' → f !! k = None → f' !! k = None.
Proof.
  unfold remove. destruct (d p); [done|].
  destruct (f !! resolve p) as [[c|es]|]; try done. intros [= <-] Hk.
  apply lookup_delete_None. right. by apply unlink_absent.
Qed.

Lemma remove_gone (d : string → bool) (f f' : Fs.t) (p : string) :
  remove d f p = Ok f' → f' !! resolve p = None.
Proof.
  unfold remove. destruct (d p); [done|].
  destruct (f !! resolve p) as [[c|es]|]; try done. intros [= <-].
  apply lookup_delete_eq.
Qed.

Lemma rmtree_absent (d : string → bool) (f f' : Fs.t) (p : string)
    (k : list string) :
  rmtree d f p = Ok f' → f !! k = None → f' !! k = None.
Proof.
  unfold rmtree. destruct (d p); [done|].
  destruct (f !! resolve p) as [[c|es]|]; try done. intros [= <-] Hk.
  apply map_lookup_filter_None. left. by apply unlink_absent.
Qed.

Lemma rmtree_gone (d : string → bool) (f f' : Fs.t) (p : string) :
  rmtree d f p = Ok f' → f' !! resolve p = None.
Proof.
  unfold rmtree. destruct (d p); [done|].
  destruct (f !! resolve p) as [[c|es]|]; try done. intros [= <-].
  apply map_lookup_filter_None. right. intros x _ Hn. by apply Hn.
Qed.

(** A file written is there afterwards, with the text written. *)
Lemma write_file_stored (d : string → bool) (f f' : Fs.t) (p text : string) :
  write_file d f p text = Ok f' → f' !! resolve p = Some (File text).
Proof.
  unfold write_file. destruct (d p); [done|].
  destruct (split_last (resolve p)) as [[parent n]|]; [|done].
  destruct (f !! parent) as [[c|es]|]; try done.
  destruct (f !! resolve p) as [[c|es']|]; try done.
  all: intros [= <-]; apply lookup_insert_eq.
Qed.

Lemma add_entry_keeps_dir (parent k : list string) (n : string) (f : Fs.t) :
  holds_dir f k → holds_dir (add_entry parent n f) k.
Proof.
  intros [es Hk]. unfold add_entry, holds_dir.
  destruct (f !! parent) as [[c|es']|] eqn:E; eauto.
  destruct (decide (parent = k)) as [->|Hne].
  - rewrite lookup_insert_eq. eauto.
  - rewrite lookup_insert_ne by done. eauto.
Qed.

Lemma mkdirs_from_keeps_dir (rest parent k : list string) (f f' : Fs.t) :
  mkdirs_from parent rest f = Ok f' → holds_dir f k → holds_dir f' k.
Proof.
  revert parent f. induction rest as [|n rest IH]; intros parent f.
  - by intros [= <-].
  - cbn [mkdirs_from]. destruct (f !! (parent ++ [n])) as [[c|es]|] eqn:E.
    + done.
    + apply IH.
    + intros H Hk. apply (IH _ _ H).
      destruct (decide (parent ++ [n] = k)) as [<-|Hne].
      * exists []. apply lookup_insert_eq.
      * destruct (add_entry_keeps_dir parent k n f Hk) as [es Hes].
        exists es. by rewrite lookup_insert_ne.
Qed.

Lemma mkdirs_from_makes_dir (rest parent : list string) (f f' : Fs.t) :
  mkdirs_from parent rest f = Ok f' →
  (rest = [] → holds_dir f parent) → holds_dir f' (parent ++ rest).
Proof.
  revert parent f. induction rest as [|n rest IH]; intros parent f.
  - intros [= <-] H. rewrite app_nil_r. by apply H.
  - cbn [mkdirs_from]. rewrite (cons_middle n parent rest), app_assoc.
    destruct (f !! (parent ++ [n])) as [[c|es]|] eqn:E.
    + done.
    + intros H _. apply (IH _ _ H). intros _. by exists es.
    + intros H _. apply (IH _ _ H). intros _. exists [].
      apply lookup_insert_eq.
Qed.

Lemma remove_keeps_dir (d : string → bool) (f f' : Fs.t) (p : string)
    (k : list string) :
  remove d f p = Ok f' → holds_dir f k → holds_dir f' k.
Proof.
  unfold remove. destruct (d p); [done|].
  destruct (f !! resolve p) as [[c|es]|] eqn:E; try done.
  intros [= <-] [es Hk]. unfold holds_dir.
  rewrite lookup_delete_ne by (intros Heq; congruence).
  unfold unlink. destruct (split_last (resolve p)) as [[parent n]|]; [|eauto].
  unfold del_entry. destruct (f !! parent) as [[c'|es']|] eqn:E'; eauto.
  destruct (decide (parent = k)) as [->|Hne].
  - rewrite lookup_insert_eq. eauto.
  - rewrite lookup_insert_ne by done. eauto.
Qed.

Lemma extractall_makes_dir (d : string → bool) (f f' : Fs.t) (dest : string)
    (members : list (string * string)) :
  resolve dest ≠ [] →
  extractall d f dest members = Ok f' → holds_dir f' (resolve dest).
Proof.
  intros Hne. unfold extractall. destruct (d dest); [done|].
  destruct (mkdirs_from [] (resolve dest) f) as [f1|] eqn:E; [|done].
  intros [= <-].
  apply mkdirs_from_makes_dir in E; [|done]. cbn [app] in E.
  revert f1 E. induction members as [|m members IH]; intros f1 E; [done|].
  cbn [foldl]. apply IH.
  destruct (add_entry_keeps_dir (resolve dest) (resolve dest) m.1 f1 E)
    as [es Hes].
  exists es. rewrite lookup_insert_ne; [done|].
  intros Heq. apply (f_equal length) in Heq. rewrite length_app in Heq.
  cbn in Heq. lia.
Qed.

Lemma makedirs_exist_ok_keeps_dir (d : string → bool) (f f' : Fs.t)
    (p : string) (k : list string) :
  makedirs_exist_ok d f p = Ok f' → holds_dir f k → holds_dir f' k.
Proof.
  unfold makedirs_exist_ok.
  destruct (f !! resolve p) as [[c|es]|]; try done.
  - by intros [= <-].
  - destruct (d p); [done|]. apply mkdirs_from_keeps_dir.
Qed.

Lemma makedirs_exist_ok_makes_dir (d : string → bool) (f f' : Fs.t)
    (p : string) :
  resolve p ≠ [] →
  makedirs_exist_ok d f p = Ok f' → holds_dir f' (resolve p).
Proof.
  intros Hne. unfold makedirs_exist_ok.
  destruct (f !! resolve p) as [[c|es]|] eqn:E; try done.
  - intros [= <-]. by exists es.
  - destruct (d p); [done|]. intros H.
    by apply mkdirs_from_makes_dir in H.
Qed.

Lemma isdir_holds (f : Fs.t) (p : string) :
  isdir f p = true ↔ holds_dir f (resolve p).
Proof.
  unfold isdir, holds_dir. destruct (f !! resolve p) as [[c|es]|]; split;
    try done; try (intros [? [=]]). eauto.
Qed.

End MoreFsFacts.

(** * The provisioner, call by call *)

Ltac fields :=
  cbn [fs queue applog sys_path tk trace bundled source_var output_var
       window_var is_converting button_enabled console progress_var dialogs
       timers fst snd].

Section Provisioner.
Variable env : Env.
Import PyStr OsPath.

(** The import path and the file system after [ensure_dependencies]. *)
Lemma ensure_dependencies_leaves (w : World) (c : completion bool unit)
    (w' : World) :
  ensure_dependencies env w = (c, w') →
  (∃ b, c = Returned b ∧
        sys_path w' =
          (if mem (pyinstaller_path env) (sys_path w) then sys_path w
           else pyinstaller_path env :: sys_path w)) ∨
  (∃ msg, c = Raised (Exception msg) ∧ sys_path w' = sys_path w ∧
          timers (tk w') = timers (tk w) ∧
          ((trace w' = trace w ++ install_ops env false false false ∧
            fs w' = fs w) ∨
           (trace w' = trace w ++ install_ops env true false false ∧
            fetch_to env (url pyinstaller_info) (temp_archive env) (fs w)
              = Ok (fs w')) ∨
           (trace w' = trace w ++ install_ops env true true false ∧
            ∃ f1, fetch_to env (url pyinstaller_info) (temp_archive env) (fs w)
                    = Ok f1 ∧
                  unpack_to env (temp_archive env) (pyinstaller_path env) f1
                    = Ok (fs w')))).
Proof.
  intros H. split_world w.
  unfold ensure_dependencies, DEPENDENCIES, install_loop in H.
  norm_in H. change (dep_path env _ _) with (pyinstaller_path env) in H.
  change (join (gettempdir env) _) with (temp_archive env) in H.
  change (url _) with (url pyinstaller_info) in H.
  run_in H.
  all: injection H as <- <-; fields.
  all: first
    [ left; eexists; split; [reflexivity|];
      repeat match goal with E : mem _ _ = _ |- _ => rewrite E end;
      reflexivity
    | right; eexists; split; [reflexivity|]; split; [reflexivity|];
      split; [reflexivity|]; choose ].
Qed.

Lemma mem_head (x : string) (l : list string) : mem x (x :: l) = true.
Proof. unfold mem. cbn. by rewrite String.eqb_refl. Qed.

Lemma pyinstaller_path_key :
  resolve (pyinstaller_path env) =
  resolve (deps_dir env) ++ ["pyinstaller-5.13.0"].
Proof. by apply resolve_join. Qed.

(** An install that went through leaves the bundler's directory. *)
Lemma installed_exists (f f' : Fs.t) :
  installed env f f' → Fs.exists_ f' (pyinstaller_path env) = true.
Proof.
  intros (f1 & f2 & _ & Hu & Hr).
  assert (holds_dir f2 (resolve (pyinstaller_path env))) as Hd.
  { unfold unpack_to in Hu.
    destruct (f1 !! resolve (temp_archive env)) as [[body|]|]; try done.
    destruct (unzip env body) as [members|]; [|done].
    apply extractall_makes_dir in Hu; [done|].
    rewrite pyinstaller_path_key. by destruct (resolve (deps_dir env)). }
  destruct (remove_keeps_dir _ _ _ _ _ Hr Hd) as [es Hes].
  unfold Fs.exists_. by rewrite Hes.
Qed.

(** X4: [ensure_dependencies] puts the bundler's directory at the front
    of the import path unless it is there already, so the path never
    holds it twice and a second call leaves the path alone; a failed
    install leaves the path as it was. *)
Theorem import_path_gets_one_entry (w : World) :
  let r := ensure_dependencies env w in
  let dep := pyinstaller_path env in
  (∀ b, r.1 = Returned b →
     sys_path r.2 =
       (if mem dep (sys_path w) then sys_path w else dep :: sys_path w) ∧
     mem dep (sys_path r.2) = true ∧
     (NoDup (sys_path w) → NoDup (sys_path r.2)) ∧
     sys_path (ensure_dependencies env r.2).2 = sys_path r.2) ∧
  (∀ e, r.1 = Raised e → sys_path r.2 = sys_path w).
Proof.
  cbv zeta. destruct (ensure_dependencies env w) as [c w'] eqn:H.
  apply ensure_dependencies_leaves in H. cbn [fst snd].
  destruct H as [(b & -> & Hp)|(msg & -> & Hp & _)].
  - split; [|done]. intros _ _.
    assert (mem (pyinstaller_path env) (sys_path w') = true) as Hm.
    { rewrite Hp. destruct (mem _ (sys_path w)) eqn:E; [done|apply mem_head]. }
    split; [done|]. split; [done|]. split.
    + rewrite Hp. destruct (mem _ (sys_path w)) eqn:E; [done|].
      intros Hn. constructor; [|done]. intros Hin.
      assert (mem (pyinstaller_path env) (sys_path w) = true); [|congruence].
      apply existsb_exists. exists (pyinstaller_path env).
      split; [by apply list_elem_of_In|apply String.eqb_refl].
    + destruct (ensure_dependencies env w') as [c2 w2] eqn:H2.
      apply ensure_dependencies_leaves in H2. cbn [snd].
      destruct H2 as [(b2 & _ & ->)|(m2 & _ & -> & _)]; [|done].
      by rewrite Hm.
  - split; [done|]. by intros _ _.
Qed.

(** X5: when the extraction of the downloaded archive fails, the
    failure is raised, nothing is deleted, and the archive stays in
    the temporary directory; no restart is scheduled. *)
Theorem failed_extraction_leaves_archive (w : World) :
  let r := ensure_dependencies env w in
  In (Extract (temp_archive env) (pyinstaller_path env) false)
     (new_ops w r.2) →
  (∃ msg, r.1 = Raised (Exception msg)) ∧
  Fs.exists_ (fs r.2) (temp_archive env) = true ∧
  (∀ p ok, ¬ In (Remove p ok) (new_ops w r.2)) ∧
  timers (tk r.2) = timers (tk w).
Proof.
  cbv zeta. destruct (ensure_dependencies env w) as [c w'] eqn:H.
  pose proof H as H'. apply ensure_dependencies_cases in H'.
  apply ensure_dependencies_leaves in H. cbn [fst snd]. unfold new_ops.
  destruct H' as (_ & _ & _ & _ & _ & _ &
    [(-> & _ & _ & Ht)|[(-> & _ & Ht & _)|(m & d & e & -> & _ & Ht & _)]]).
  1-2: rewrite Ht, ?drop_app_length, ?drop_all; intros Hin; walk Hin.
  destruct H as [(b & [=] & _)|(msg & _ & _ & Htm & Hc)].
  destruct Hc as [[Hc _]|[[Hc Hf]|[Hc _]]]; rewrite Hc, drop_app_length;
    intros Hin; walk Hin.
  split; [eauto|]. split; [|split; [|done]].
  - unfold fetch_to in Hf. destruct (urlretrieve env _); [|done].
    apply write_file_stored in Hf. unfold Fs.exists_. by rewrite Hf.
  - intros p ok Hr. walk Hr.
Qed.

(** X6: after an install that went through, the bundler's directory
    exists, so the next call finds it: it returns false, downloads
    nothing and leaves the file system as it is.  The archive is
    taken to have a member: [extractall] makes the directory for the
    members it extracts. *)
Theorem install_is_found_next_time (w : World) :
  let r := ensure_dependencies env w in
  let again := ensure_dependencies env r.2 in
  (∀ body members, unzip env body = Ok members → members ≠ []) →
  r.1 = Returned true →
  Fs.exists_ (fs r.2) (pyinstaller_path env) = true ∧
  again.1 = Returned false ∧ new_ops r.2 again.2 = [] ∧
  fs again.2 = fs r.2.
Proof.
  cbv zeta. intros _. destruct (ensure_dependencies env w) as [c w'] eqn:H.
  apply ensure_dependencies_cases in H. cbn [fst snd].
  destruct H as (_ & _ & _ & _ & _ & _ &
    [(-> & _)|[(_ & _ & _ & _ & Hi)|(m & d & e & -> & _)]]); try done.
  intros _. apply installed_exists in Hi. split; [done|].
  destruct (ensure_dependencies env w') as [c2 w2] eqn:H2.
  apply ensure_dependencies_cases in H2. cbn [fst snd].
  destruct H2 as (_ & _ & _ & _ & _ & _ &
    [(-> & _ & Hf & Ht)|[(_ & Ha & _)|(m & d & e & _ & Ha & _)]]);
    try congruence.
  unfold new_ops. by rewrite Ht, drop_all.
Qed.

End Provisioner.

(** * The cleanup and the provisioner in full *)

Lemma exists_false (f : Fs.t) (p : string) :
  Fs.exists_ f p = false ↔ f !! OsPath.resolve p = None.
Proof. unfold Fs.exists_. by destruct (f !! OsPath.resolve p). Qed.

(** Closes a goal saying that a path is absent after deletions. *)
Ltac gone :=
  repeat match goal with
         | E : Fs.exists_ _ _ = false |- _ => apply exists_false in E
         end;
  apply exists_false;
  repeat first
    [ eassumption
    | solve [eapply remove_gone; eassumption]
    | solve [eapply rmtree_gone; eassumption]
    | eapply remove_absent; [eassumption|]
    | eapply rmtree_absent; [eassumption|] ].

Ltac targets :=
  let op := fresh "op" in
  let Hin := fresh "Hin" in
  intros op Hin; walk Hin; subst op; unfold cleanup_target;
  eexists; first [ left; reflexivity | right; left; reflexivity
                 | right; right; reflexivity ].

Section CleanUp.
Variable env : Env.
Import PyStr OsPath.

(** The cleanup in full: which paths it deletes, that it stops at the
    first deletion that fails, and that nothing of the three is left
    when all went through. *)
Lemma clean_up_detail (src out : string) (w : World)
    (c : completion unit unit) (w' : World) :
  clean_up env src out w = (c, w') →
  c = Normal tt ∧ tk w' = tk w ∧ sys_path w' = sys_path w ∧
  bundled w' = bundled w ∧
  ∃ ops logs,
    trace w' = trace w ++ ops ∧ applog w' = applog w ++ logs ∧
    forallb is_cleanup ops = true ∧
    (∀ op, In op ops → cleanup_target src out op) ∧
    forallb succeeded (removelast ops) = true ∧
    ((forallb succeeded ops = true ∧
      In (Remove (launcher_path src) true) ops ∧
      queue w' = queue w ++
        [Log "Cleaned up temporary files and build artifacts"; Progress 100] ∧
      Fs.exists_ (fs w') (launcher_path src) = false ∧
      Fs.exists_ (fs w') (join out "build") = false ∧
      Fs.exists_ (fs w') (join out "launcher.spec") = false) ∨
     (∃ msg, forallb succeeded ops = false ∧ queue w' = queue w ∧
      In (WARNING, "Failed to clean up temporary files: " +:+ msg) logs)).
Proof.
  intros H. split_world w. unfold clean_up in H. norm_in H.
  run_in H.
  all: injection H as <- <-; fields.
  all: do 4 (split; [reflexivity|]).
  all: eexists _, _.
  all: split; [rewrite <- ?app_assoc; cbn [app]; reflexivity|].
  all: split; [rewrite <- ?app_assoc; cbn [app]; reflexivity|].
  all: split; [reflexivity|].
  all: split; [targets|].
  all: split; [reflexivity|].
  all: first
    [ left; split; [reflexivity|]; split; [cbn; auto|];
      split; [by rewrite <- app_assoc|];
      split; [gone|]; split; gone
    | right; eexists; split; [reflexivity|]; split; [reflexivity|];
      cbn; auto ].
Qed.

End CleanUp.

Section ProvisionForm.
Variable env : Env.
Import PyStr OsPath.

(** What the provisioner does to the form: console lines and, after
    an install, the timer that closes the window. *)
Lemma ensure_dependencies_form (w : World) (c : completion bool unit)
    (w' : World) :
  ensure_dependencies env w = (c, w') →
  is_converting (tk w') = is_converting (tk w) ∧
  button_enabled (tk w') = button_enabled (tk w) ∧
  progress_var (tk w') = progress_var (tk w) ∧
  dialogs (tk w') = dialogs (tk w) ∧
  ∃ lines more,
    console (tk w') = console (tk w) ++ lines ∧
    timers (tk w') = timers (tk w) ++ more ∧
    (Fs.exists_ (fs w) (pyinstaller_path env) = true →
     lines = ["Checking dependencies..."] ∧ more = []).
Proof.
  intros H. split_world w.
  unfold ensure_dependencies, DEPENDENCIES, install_loop in H.
  norm_in H. change (dep_path env _ _) with (pyinstaller_path env) in H.
  run_in H.
  all: injection H as <- <-; fields.
  all: do 4 (split; [reflexivity|]).
  all: eexists _, _.
  all: split; [rewrite <- ?app_assoc; reflexivity|].
  all: split; [first [reflexivity | symmetry; apply app_nil_r]|].
  all: intros Hb; first [congruence | by split].
Qed.

(** [provision_spec] with the form. *)
Lemma provision_detail (w : World) (c : completion unit unit) (w' : World) :
  provision env w = (c, w') →
  (is_converting (tk w') = is_converting (tk w) ∧
   button_enabled (tk w') = button_enabled (tk w) ∧
   progress_var (tk w') = progress_var (tk w) ∧
   dialogs (tk w') = dialogs (tk w) ∧
   ∃ lines more,
     console (tk w') = console (tk w) ++ lines ∧
     timers (tk w') = timers (tk w) ++ more ∧
     (Fs.exists_ (fs w) (pyinstaller_path env) = true →
      lines = ["Checking dependencies..."] ∧ more = [])) ∧
  queue w' = queue w ∧ bundled w' = bundled w ∧
  source_var (tk w') = source_var (tk w) ∧
  output_var (tk w') = output_var (tk w) ∧
  window_var (tk w') = window_var (tk w) ∧
  (∃ logs, applog w' = applog w ++ logs) ∧
  ((c = Normal tt ∧ Fs.exists_ (fs w) (pyinstaller_path env) = true ∧
    fs w' = fs w ∧ trace w' = trace w) ∨
   (c = Returned tt ∧ Fs.exists_ (fs w) (pyinstaller_path env) = false ∧
    trace w' = trace w ++ install_ops env true true true ∧
    installed env (fs w) (fs w')) ∨
   (∃ msg d e, c = Raised (Exception msg) ∧
    Fs.exists_ (fs w) (pyinstaller_path env) = false ∧
    trace w' = trace w ++ install_ops env d e false ∧
    install_failed env (fs w) msg d e)).
Proof.
  intros H. split; [|by apply provision_spec].
  unfold provision, call, bind, when, return_, ret in H.
  destruct (ensure_dependencies env w) as [c1 w1] eqn:E.
  assert (w' = w1) as ->.
  { destruct c1 as [[]|[]|]; by injection H as _ <-. }
  by apply ensure_dependencies_form in E.
Qed.

End ProvisionForm.

Ltac stage_by H lem :=
  let T := type of H in
  let x := scrutinee T in
  let c1 := fresh "c" in
  let w1 := fresh "w" in
  let E := fresh "Hst" in
  destruct x as [c1 w1] eqn:E;
  apply lem in E; cbv zeta in E; unfold quiet in E;
  split_world w1;
  cbn [fs queue applog sys_path tk trace bundled source_var output_var
       window_var is_converting button_enabled console progress_var dialogs
       timers] in E;
  unpack_all; tidy H.

Ltac run_stage_by lp lc H :=
  let T := type of H in
  let x := scrutinee T in
  lazymatch x with
  | T => fail
  | provision _ _ => stage_by H lp
  | read_paths _ => stage_with H read_paths_spec
  | scan _ _ => stage_with H scan_spec
  | prepare_output _ _ _ => stage_with H prepare_output_spec
  | write_launcher _ _ _ _ _ => stage_with H write_launcher_spec
  | invoke_bundler _ _ _ _ => stage_with H invoke_bundler_spec
  | clean_up _ _ _ _ => stage_by H lc
  | _ => destruct x eqn:?; tidy H
  end.

(** [run_pipeline] with the provisioner and the cleanup spelled out by
    the lemmas [lp] and [lc]. *)
Ltac run_pipeline_by lp lc H :=
  unfold convert_app in H; norm_in H; repeat run_stage_by lp lc H;
  injection H as <- <-;
  unfold new_events, new_ops, new_logs, new_calls;
  cbn [fs queue applog sys_path tk trace bundled fst snd source_var
       output_var window_var is_converting button_enabled console
       progress_var dialogs timers];
  rewrite <- ?app_assoc; rewrite ?drop_app_length, ?drop_all.

Ltac run_pipeline_in_detail H :=
  run_pipeline_by provision_spec clean_up_detail H.

(** * What every run does *)

Ltac spell :=
  unfold scan_prefix, bundling_events, found_line; split_flag.

(** Finds the events ahead of the ones the goal names. *)
Ltac ends_with :=
  first [ by eexists [] | by eexists [_] | by eexists [_; _]
        | by eexists [_; _; _] | by eexists [_; _; _; _]
        | by eexists [_; _; _; _; _] | by eexists [_; _; _; _; _; _] ].

Lemma but_last_ok {A : Type} (P : A → bool) (l : list A) :
  forallb P l = true → forallb P (removelast l) = true.
Proof.
  induction l as [|a l IH]; [done|]. cbn [forallb].
  intros [Ha Hl]%andb_true_iff. destruct l as [|b l]; [done|].
  change (removelast (a :: b :: l)) with (a :: removelast (b :: l)).
  cbn [forallb]. by rewrite Ha, IH.
Qed.

Lemma but_last_app {A : Type} (P : A → bool) (a l : list A) :
  forallb P a = true → forallb P (removelast l) = true →
  forallb P (removelast (a ++ l)) = true.
Proof.
  intros Ha Hl. destruct l as [|x l].
  - rewrite app_nil_r. by apply but_last_ok.
  - rewrite removelast_app by done. by rewrite forallb_app, Ha, Hl.
Qed.

Section EveryRun.
Variable env : Env.
Import PyStr OsPath.

(** X13: what a run tells the user.  A run that falls through to the
    end posts the success event once, after a successful bundler call,
    or the error event of the outermost handler once, with the same
    message on the console and in the log; a run that returns early
    posts nothing (the provisioner installed) or one error event; a
    run the bundler left with [SystemExit] posts neither, and the
    exception leaves [convert_app].  Every run ends with [done]. *)
Theorem run_verdict (w : World) :
  let r := convert_app env w in
  let out := strip (output_var (tk w)) in
  let evs := new_events w r.2 in
  let verdicts := List.filter is_verdict evs in
  List.last evs (Progress 0) = Done ∧
  match r.1 with
  | Normal _ =>
      (verdicts = [Success (success_message out)] ∧
       ∃ args, In (RunBundler args true) (new_ops w r.2)) ∨
      (∃ msg, verdicts = [Error ("An error occurred: " +:+ msg)] ∧
              In (Log ("ERROR: An error occurred: " +:+ msg)) evs ∧
              In (ERROR, "An error occurred: " +:+ msg) (new_logs w r.2))
  | Returned _ =>
      (verdicts = [] ∧ evs = [Done]) ∨
      (∃ msg pre, verdicts = [Error msg] ∧ evs = pre ++ [Error msg; Done; Done])
  | Raised e =>
      verdicts = [] ∧
      ∃ msg args, e = SystemExit msg ∧
                  In (RunBundler args false) (new_ops w r.2)
  end.
Proof.
  cbv zeta. destruct (convert_app env w) as [c w'] eqn:H.
  split_world w. run_pipeline H.
  all: split; [spell; reflexivity|].
  all: spell; cbn [app List.filter is_verdict].
  all: lazymatch goal with
       | |- _ ∧ (∃ args, In (RunBundler args true) _) ∨ _ =>
           first [ left; split; [reflexivity|eexists; solve [here]]
                 | right; eexists; split; [reflexivity|];
                   split; [solve [here]|solve [here]] ]
       | |- _ ∧ _ = [Done] ∨ _ =>
           first [ left; split; reflexivity
                 | right; eexists _; ends_with ]
       | |- _ => split; [reflexivity|]; eexists _, _;
                 split; [reflexivity|solve [here]]
       end.
Qed.

(** X14: the progress values of a run are an initial part of 0, 20, 40,
    60, 80, 100, whatever way the run ends; and 100 is posted only
    when every outside call of the run succeeded. *)
Theorem progress_never_goes_back (w : World) :
  let r := convert_app env w in
  let evs := new_events w r.2 in
  progress_values evs `prefix_of` progress_scale ∧
  (In (Progress 100) evs → forallb succeeded (new_ops w r.2) = true).
Proof.
  cbv zeta. destruct (convert_app env w) as [c w'] eqn:H.
  split_world w. run_pipeline H.
  all: split;
    [ spell; cbn; unfold progress_scale;
      first [ by eexists [] | by eexists [_] | by eexists [_; _]
            | by eexists [_; _; _] | by eexists [_; _; _; _]
            | by eexists [_; _; _; _; _] | by eexists [_; _; _; _; _; _] ]
    | intros Hp; first [ not_there Hp | idtac ] ].
  all: rewrite ?forallb_app; cbn [forallb succeeded andb].
  all: by repeat match goal with
               | E : forallb succeeded _ = true |- _ => rewrite E; clear E
               end.
Qed.

(** X15: a failed outside call is the last outside call of its run:
    every call but the last one succeeded. *)
Theorem failure_ends_outside_calls (w : World) :
  let r := convert_app env w in
  forallb succeeded (removelast (new_ops w r.2)) = true.
Proof.
  cbv zeta. destruct (convert_app env w) as [c w'] eqn:H.
  split_world w. run_pipeline_in_detail H.
  all: try match goal with
           | |- context [install_ops _ ?d ?e _] =>
               destruct d, e; reflexivity
           end.
  all: rewrite ?app_assoc;
    first [ reflexivity | by apply but_last_app ].
Qed.

End EveryRun.

Lemma before_done_clean (q : list event) :
  Forall (λ e, is_done e = false) (before_done q).
Proof.
  induction q as [|ev q IH]; [constructor|].
  destruct ev; cbn [before_done]; by constructor.
Qed.

Section Checks.
Variable env : Env.
Import PyStr OsPath.

(** Paths that pass both checks take the run to the scanner. *)
Lemma scanner_is_reached (w : World) :
  let r := convert_app env w in
  let src := strip (source_var (tk w)) in
  let out := strip (output_var (tk w)) in
  Fs.exists_ (fs w) (pyinstaller_path env) = true →
  truthy src && truthy out = true → Fs.exists_ (fs w) src = true →
  ∃ rest, new_events w r.2 = scan_prefix src ++ rest.
Proof.
  cbv zeta. destruct (convert_app env w) as [c w'] eqn:H.
  split_world w. run_pipeline H.
  all: intros Hb Ht He; try congruence.
  all: by eexists.
Qed.



(** X18: what a run deletes.  Apart from the downloaded archive of the
    provisioner, every deletion a run attempts is the stub in the
    source directory, the directory [build] or the file
    [launcher.spec] in the output directory. *)
Theorem deletions_are_confined (w : World) (op : sysop) :
  let r := convert_app env w in
  let src := strip (source_var (tk w)) in
  let out := strip (output_var (tk w)) in
  In op (new_ops w r.2) → is_cleanup op = true →
  (∃ ok, op = Remove (temp_archive env) ok) ∨ cleanup_target src out op.
Proof.
  cbv zeta. destruct (convert_app env w) as [c w'] eqn:H.
  split_world w. run_pipeline_in_detail H.
  all: intros Hop Hc; walk Hop; try (subst op; discriminate Hc).
  all: first [ right; auto; fail | left; subst op; eauto ].
Qed.

(** X19: when a run posts progress 100 the three temporaries are gone:
    no [launcher.py] is left in the source directory, whether the run
    created it or found one there and overwrote it, and neither
    [build] nor [launcher.spec] is left in the output directory. *)
Theorem temporaries_are_gone (w : World) :
  let r := convert_app env w in
  let src := strip (source_var (tk w)) in
  let out := strip (output_var (tk w)) in
  In (Progress 100) (new_events w r.2) →
  Fs.exists_ (fs r.2) (launcher_path src) = false ∧
  Fs.exists_ (fs r.2) (join out "build") = false ∧
  Fs.exists_ (fs r.2) (join out "launcher.spec") = false.
Proof.
  cbv zeta. destruct (convert_app env w) as [c w'] eqn:H.
  split_world w. run_pipeline_in_detail H.
  all: intros Hp; first [ not_there Hp | done ].
Qed.

(** The events of a run up to its first [done], and what follows it. *)
Lemma done_closes_the_events (w : World) :
  let r := convert_app env w in
  ∃ pre, Forall (λ e, is_done e = false) pre ∧
         (new_events w r.2 = pre ++ [Done] ∨
          new_events w r.2 = pre ++ [Done; Done]).
Proof.
  cbv zeta. destruct (convert_app env w) as [c w'] eqn:H.
  split_world w. run_pipeline H.
  all: spell; cbn [app].
  all: match goal with
       | |- ∃ pre, _ ∧ (?evs = _ ∨ _) =>
           exists (before_done evs); split; [apply before_done_clean|];
           cbn [before_done app]; first [by left | by right]
       end.
Qed.

End Checks.

(** * One conversion, end to end *)

Ltac step_ui :=
  cbv beta iota zeta delta
    [bind ret return_ raise when modify reads logger self_log update_progress
     window_after messagebox try_except tcl str
     set_fs set_queue set_applog set_sys_path set_tk set_trace set_bundled
     tk_console tk_timers tk_progress tk_dialogs tk_converting
     tk_source tk_output];
  fields.

Section Cycle.
Variable env : Env.

(** X9: one conversion, from the press of the button to the poll that
    follows the worker.  The press marks the conversion as running,
    disables the button and schedules one poll; a second press while
    it runs changes nothing on the form; and whatever way the worker
    ends, the poll that follows it finds a [done], stops there, and
    the button is back.  What stays queued is nothing, or the second
    [done] of a run that posted two. *)
Theorem conversion_cycle (w : World) :
  is_converting (tk w) = false → queue w = [] →
  let w1 := (start_conversion w).2 in
  let w2 := (convert_app env w1).2 in
  let r := check_queue w2 in
  is_converting (tk w1) = true ∧ button_enabled (tk w1) = false ∧
  timers (tk w1) = timers (tk w) ++ [(100, CheckQueue)] ∧
  tk (start_conversion w1).2 = tk w1 ∧
  r.1 = Returned tt ∧
  is_converting (tk r.2) = false ∧ button_enabled (tk r.2) = true ∧
  (queue r.2 = [] ∨ queue r.2 = [Done]).
Proof.
  intros Hc Hq. cbv zeta. split_world w. cbn in Hc, Hq. subst.
  unfold start_conversion at 1 2 3 5. step_ui.
  do 3 (split; [reflexivity|]).
  split; [unfold start_conversion; step_ui; reflexivity|].
  match goal with |- context [convert_app env ?w1] =>
    destruct (done_closes_the_events env w1) as (pre & Hpre & Hd);
    unfold new_events in Hd; cbn [queue length drop] in Hd;
    destruct (convert_app env w1) as [c w2]
  end.
  cbn [snd] in *.
  unfold check_queue.
  destruct Hd as [Hd|Hd].
  - change (queue w2 = pre ++ [Done]) in Hd. rewrite Hd.
    destruct (check_queue_loop_done pre [] w2 Hpre) as (? & ? & ? & ? & _).
    auto.
  - change (queue w2 = pre ++ [Done; Done]) in Hd. rewrite Hd.
    destruct (check_queue_loop_done pre [Done] w2 Hpre)
      as (? & ? & ? & ? & _).
    auto.
Qed.

End Cycle.

(** * The browse buttons *)

Section Form.
Variable env : Env.
Variable toolkit : Toolkit.
Import PyStr OsPath.

(** X8: the two browse buttons.  Neither lets an exception out, and
    neither touches the other path, the queue or the file system.  A
    folder picked replaces the button's own path and is written to the
    console; a cancelled dialog changes nothing at all; a dialog that
    fails leaves both paths and shows the failure in an error box. *)
Theorem browse_changes_one_path (w : World) :
  let s := browse_source toolkit w in
  let o := browse_output toolkit w in
  (s.1 = Normal tt ∧ output_var (tk s.2) = output_var (tk w) ∧
   queue s.2 = queue w ∧ fs s.2 = fs w ∧
   match askdirectory toolkit (source_var (tk w)) with
   | Ok folder =>
       if truthy folder
       then source_var (tk s.2) = folder ∧
            console (tk s.2) =
              console (tk w) ++ ["Source folder selected: " +:+ folder] ∧
            dialogs (tk s.2) = dialogs (tk w)
       else s.2 = w
   | Fail msg =>
       tk s.2 =
         tk_dialogs
           (dialogs (tk w) ++
            [ShowError ("Failed to select source folder: " +:+ msg)]) (tk w)
   end) ∧
  (o.1 = Normal tt ∧ source_var (tk o.2) = source_var (tk w) ∧
   queue o.2 = queue w ∧ fs o.2 = fs w ∧
   match askdirectory toolkit (output_var (tk w)) with
   | Ok folder =>
       if truthy folder
       then output_var (tk o.2) = folder ∧
            console (tk o.2) =
              console (tk w) ++ ["Output folder selected: " +:+ folder] ∧
            dialogs (tk o.2) = dialogs (tk w)
       else o.2 = w
   | Fail msg =>
       tk o.2 =
         tk_dialogs
           (dialogs (tk w) ++
            [ShowError ("Failed to select output folder: " +:+ msg)]) (tk w)
   end).
Proof.
  cbv zeta. split_world w. unfold browse_source, browse_output. step_ui.
  split.
  - destruct (askdirectory toolkit _) as [folder|msg]; step_ui;
      [destruct (truthy folder)|]; step_ui; repeat split.
  - destruct (askdirectory toolkit _) as [folder|msg]; step_ui;
      [destruct (truthy folder)|]; step_ui; repeat split.
Qed.

End Form.

(** * The constructor *)

Section KeepFiles.
Import PyStr OsPath Fs.

Lemma add_entry_keeps_file (parent k : list string) (n text : string)
    (f : Fs.t) :
  f !! k = Some (File text) → add_entry parent n f !! k = Some (File text).
Proof.
  intros Hk. unfold add_entry.
  destruct (f !! parent) as [[c|es]|] eqn:E; try done.
  rewrite lookup_insert_ne; [done|]. intros ->. congruence.
Qed.

Lemma mkdirs_from_keeps_file (rest parent k : list string) (text : string)
    (f f' : Fs.t) :
  mkdirs_from parent rest f = Ok f' →
  f !! k = Some (File text) → f' !! k = Some (File text).
Proof.
  revert parent f. induction rest as [|n rest IH]; intros parent f.
  - by intros [= <-].
  - cbn [mkdirs_from]. destruct (f !! (parent ++ [n])) as [[c|es]|] eqn:E.
    + done.
    + apply IH.
    + intros H Hk. apply (IH _ _ H).
      rewrite lookup_insert_ne by (intros Heq; congruence).
      by apply add_entry_keeps_file.
Qed.

Lemma makedirs_exist_ok_keeps_file (d : string → bool) (f f' : Fs.t)
    (p : string) (k : list string) (text : string) :
  makedirs_exist_ok d f p = Ok f' →
  f !! k = Some (File text) → f' !! k = Some (File text).
Proof.
  unfold makedirs_exist_ok.
  destruct (f !! resolve p) as [[c|es]|]; try done.
  - by intros [= <-].
  - destruct (d p); [done|]. apply mkdirs_from_keeps_file.
Qed.

Lemma join_key (a n : string) :
  plain n = true → n ≠ EmptyString → resolve (join a n) ≠ [].
Proof.
  intros Hp Hn. rewrite resolve_join by done. by destruct (resolve a).
Qed.

(** Making a folder next to another leaves it a directory. *)
Lemma makedirs_exist_ok_join (d : string → bool) (f f' : Fs.t)
    (a n : string) :
  plain n && truthy n = true →
  makedirs_exist_ok d f (join a n) = Ok f' →
  holds_dir f' (resolve (join a n)).
Proof.
  intros [Hp Hn]%andb_true_iff. apply makedirs_exist_ok_makes_dir.
  apply join_key; [done|]. by destruct n.
Qed.

End KeepFiles.

Section Start.
Variable env : Env.
Variable toolkit : Toolkit.
Import PyStr OsPath.

Ltac run_init H :=
  unfold init, os_makedirs_exist_ok, tcl, blank_form, tk_source, tk_output
    in H;
  norm_in H; run_in H;
  injection H as <- <-; unfold new_ops; fields;
  rewrite <- ?app_assoc, ?drop_app_length, ?drop_all.

(** The defaults a constructor that completes leaves on the form. *)
Lemma init_defaults (w w' : World) :
  init env toolkit w = (Normal tt, w') →
  source_var (tk w') = join (SCRIPT_DIR env) "source" ∧
  output_var (tk w') = join (SCRIPT_DIR env) "output" ∧
  Fs.exists_ (fs w') (join (SCRIPT_DIR env) "source") = true.
Proof.
  destruct (init env toolkit w) as [c w0] eqn:H.
  split_world w. run_init H. all: intros Hn; try discriminate Hn.
  injection Hn as <-. fields.
  split; [reflexivity|]. split; [reflexivity|].
  match goal with
  | H2 : makedirs_exist_ok _ _ (join _ "source") = Ok _,
    H3 : makedirs_exist_ok _ _ (join _ "output") = Ok _ |- _ =>
      pose proof (makedirs_exist_ok_join _ _ _ _ "source" eq_refl H2) as D2;
      apply (makedirs_exist_ok_keeps_dir _ _ _ _ _ H3) in D2
  end.
  destruct D2 as [es Hes]. unfold Fs.exists_. by rewrite Hes.
Qed.

(** X1: a constructor that completes leaves the form at its defaults
    (source and output folder next to the program, window mode off,
    nothing running) over an empty queue, and the three folders
    [dependencies], [source] and [output] exist.  It makes the ones
    that are missing and leaves the rest alone: a directory stays a
    directory and no file is removed or overwritten. *)
Theorem init_sets_up_the_folders (w w' : World) :
  init env toolkit w = (Normal tt, w') →
  let default_source := join (SCRIPT_DIR env) "source" in
  let default_output := join (SCRIPT_DIR env) "output" in
  tk w' =
    {| source_var := default_source; output_var := default_output;
       window_var := false; is_converting := false; button_enabled := true;
       console := []; progress_var := 0; dialogs := []; timers := [] |} ∧
  queue w' = [] ∧
  isdir (fs w') (deps_dir env) = true ∧
  isdir (fs w') default_source = true ∧
  isdir (fs w') default_output = true ∧
  (∀ p, isdir (fs w) p = true → isdir (fs w') p = true) ∧
  (∀ k text, fs w !! k = Some (Fs.File text) →
             fs w' !! k = Some (Fs.File text)).
Proof.
  cbv zeta. destruct (init env toolkit w) as [c w0] eqn:H.
  split_world w. run_init H. all: intros Hn; try discriminate Hn.
  injection Hn as <-. fields.
  split; [reflexivity|]. split; [reflexivity|].
  match goal with
  | H1 : makedirs_exist_ok _ _ (deps_dir env) = Ok _,
    H2 : makedirs_exist_ok _ _ (join _ "source") = Ok _,
    H3 : makedirs_exist_ok _ _ (join _ "output") = Ok _ |- _ =>
      pose proof (makedirs_exist_ok_join _ _ _ _ "dependencies" eq_refl H1)
        as D1;
      pose proof (makedirs_exist_ok_join _ _ _ _ "source" eq_refl H2) as D2;
      pose proof (makedirs_exist_ok_join _ _ _ _ "output" eq_refl H3) as D3;
      pose proof (λ k, makedirs_exist_ok_keeps_dir _ _ _ _ k H1) as K1;
      pose proof (λ k, makedirs_exist_ok_keeps_dir _ _ _ _ k H2) as K2;
      pose proof (λ k, makedirs_exist_ok_keeps_dir _ _ _ _ k H3) as K3;
      pose proof (λ k t, makedirs_exist_ok_keeps_file _ _ _ _ k t H1) as F1;
      pose proof (λ k t, makedirs_exist_ok_keeps_file _ _ _ _ k t H2) as F2;
      pose proof (λ k t, makedirs_exist_ok_keeps_file _ _ _ _ k t H3) as F3
  end.
  rewrite !isdir_holds. repeat split; auto.
  intros p. rewrite !isdir_holds. auto.
Qed.

(** X2: where the constructor stops when Tk fails.  Without a window
    nothing is touched.  With a window but without the theme it asks
    for, the constructor has already dealt with [dependencies] and
    raises before it looks at the default folders. *)
Theorem init_stops_where_tk_fails (w : World) :
  let r := init env toolkit w in
  (∀ msg, create_window toolkit = Fail msg →
     r.1 = Raised (Exception msg) ∧ new_ops w r.2 = [] ∧ fs r.2 = fs w) ∧
  (∀ msg, create_window toolkit = Ok tt →
     theme_use toolkit "vista" = Fail msg →
     (∃ m, r.1 = Raised (Exception m)) ∧
     (∃ ok, new_ops w r.2 = [Makedirs (deps_dir env) ok]) ∧
     (In (Makedirs (deps_dir env) true) (new_ops w r.2) →
      r.1 = Raised (Exception msg) ∧ isdir (fs r.2) (deps_dir env) = true)).
Proof.
  cbv zeta. destruct (init env toolkit w) as [c w'] eqn:H.
  split_world w. run_init H.
  all: split; [intros m Hw | intros m Hw Ht]; try congruence.
  all: try (repeat split; congruence).
  all: split; [eauto|]; split; [eauto|]; intros Hin; walk Hin.
  split; [congruence|].
  match goal with
  | H1 : makedirs_exist_ok _ _ _ = Ok _ |- _ =>
      apply (makedirs_exist_ok_join _ _ _ _ "dependencies" eq_refl) in H1
  end.
  by apply isdir_holds.
Qed.

End Start.

Section StripFacts.
Import PyStr OsPath.

Lemma lstrip_length (s : string) : String.length (lstrip s) ≤ String.length s.
Proof.
  induction s as [|c s IH]; [done|]. cbn [lstrip].
  destruct (isspace c); cbn [String.length]; lia.
Qed.

(** A text that [lstrip] leaves alone does not start with white space. *)
Lemma lstrip_fixed (c : ascii) (s : string) :
  lstrip (String c s) = String c s → isspace c = false.
Proof.
  cbn [lstrip]. destruct (isspace c); [|done]. intros E.
  pose proof (lstrip_length s) as Hl. rewrite E in Hl. cbn in Hl. lia.
Qed.

Lemma rstrip_ends (a : string) (c : ascii) :
  isspace c = false →
  rstrip (a +:+ String c EmptyString) = a +:+ String c EmptyString.
Proof.
  intros Hc. induction a as [|x a IH].
  - rewrite append_nil_l. cbn [rstrip]. by rewrite Hc.
  - rewrite append_cons. cbn [rstrip]. rewrite IH.
    by destruct a.
Qed.

(** [strip] leaves alone a text with no white space at either end. *)
Lemma strip_fixed (c d : ascii) (a : string) :
  isspace c = false → isspace d = false →
  strip (String c (a +:+ String d EmptyString)) =
  String c (a +:+ String d EmptyString).
Proof.
  intros Hc Hd. unfold strip. cbn [lstrip]. rewrite Hc.
  rewrite <- append_cons. by apply rstrip_ends.
Qed.

(** A folder next to the program keeps its name under [strip] when the
    program's directory does not start with white space. *)
Lemma strip_join (a n0 : string) (d : ascii) :
  lstrip a = a → isspace d = false →
  strip (n0 +:+ String d EmptyString) = n0 +:+ String d EmptyString →
  strip (join a (n0 +:+ String d EmptyString)) =
  join a (n0 +:+ String d EmptyString).
Proof.
  intros Ha Hd Hn. unfold join.
  destruct a as [|c a]; [done|]. apply lstrip_fixed in Ha.
  destruct (last_char (String c a)) as [x|]; [|done].
  destruct (is_boundary x).
  - rewrite append_cons, <- append_assoc. by apply strip_fixed.
  - rewrite append_cons, <- !append_assoc. by apply strip_fixed.
Qed.

End StripFacts.

Section FreshStart.
Variable env : Env.
Variable toolkit : Toolkit.
Import PyStr OsPath.

(** X3: the defaults pass the path checks.  After a constructor that
    completed, with the bundler installed and the program in a
    directory whose path does not start with white space, a conversion
    started without touching the form reaches the scanner and scans
    the folder [source] next to the program. *)
Theorem fresh_start_reaches_scanner (w w1 : World) :
  init env toolkit w = (Normal tt, w1) →
  lstrip (SCRIPT_DIR env) = SCRIPT_DIR env →
  Fs.exists_ (fs w1) (pyinstaller_path env) = true →
  let r := convert_app env w1 in
  In (Progress 0) (new_events w1 r.2) ∧
  ∃ rest, new_events w1 r.2 =
          scan_prefix (join (SCRIPT_DIR env) "source") ++ rest.
Proof.
  intros Hi Hs Hb. cbv zeta.
  destruct (init_defaults env toolkit w w1 Hi) as (Hsv & Hov & Hsrc).
  assert (strip (join (SCRIPT_DIR env) "source") =
          join (SCRIPT_DIR env) "source") as Es
    by exact (strip_join _ "sourc" "e" Hs eq_refl eq_refl).
  assert (strip (join (SCRIPT_DIR env) "output") =
          join (SCRIPT_DIR env) "output") as Eo
    by exact (strip_join _ "outpu" "t" Hs eq_refl eq_refl).
  pose proof (scanner_is_reached env w1 Hb) as Hr. cbv zeta in Hr.
  rewrite Hsv, Hov, Es, Eo in Hr.
  destruct Hr as [rest Hrest].
  - pose proof (join_key (SCRIPT_DIR env) "source" eq_refl ltac:(done)).
    pose proof (join_key (SCRIPT_DIR env) "output" eq_refl ltac:(done)).
    unfold join in *.
    destruct (last_char (SCRIPT_DIR env)) as [x|];
      [destruct (is_boundary x)|]; by destruct (SCRIPT_DIR env).
  - exact Hsrc.
  - split; [|by exists rest]. rewrite Hrest. by left.
Qed.

End FreshStart.

(** * The widgets and the worker *)

Section Widgets.
Variable env : Env.
Import PyStr OsPath.

(** X7: what the provisioner shows.  It writes straight to the console,
    not to the queue: the check always, the download when the bundler
    is absent, the two closing lines when the install went through;
    and only then it schedules the window to close after two
    seconds.  Nothing in it starts the program again. *)
Theorem provisioner_shows (w : World) :
  let r := ensure_dependencies env w in
  let absent := negb (Fs.exists_ (fs w) (pyinstaller_path env)) in
  let installed := match r.1 with Returned true => true | _ => false end in
  console (tk r.2) =
    console (tk w) ++ ["Checking dependencies..."] ++
    (if absent then ["Downloading pyinstaller..."] else []) ++
    (if installed
     then [ "Installed pyinstaller successfully";
            "Dependencies installed. Restarting application..." ]
     else []) ∧
  timers (tk r.2) =
    timers (tk w) ++ (if installed then [(2000, Destroy)] else []) ∧
  queue r.2 = queue w ∧ dialogs (tk r.2) = dialogs (tk w).
Proof.
  cbv zeta. destruct (ensure_dependencies env w) as [c w'] eqn:H.
  split_world w.
  unfold ensure_dependencies, DEPENDENCIES, install_loop in H.
  norm_in H. change (dep_path env _ _) with (pyinstaller_path env) in H.
  run_in H.
  all: injection H as <- <-; fields.
  all: repeat match goal with
              | E : Fs.exists_ _ _ = _ |- _ => rewrite E; clear E
              end; cbn [negb app].
  all: rewrite <- ?app_assoc, ?app_nil_r; repeat split.
Qed.

(** Every write of a run goes to the stub path. *)
Lemma written_paths (w : World) (p text : string) (ok : bool) :
  let r := convert_app env w in
  In (WriteFile p text ok) (new_ops w r.2) →
  p = launcher_path (strip (source_var (tk w))).
Proof.
  cbv zeta. destruct (convert_app env w) as [c w'] eqn:H.
  split_world w. run_pipeline H.
  all: intros Hin; walk Hin; drop_cleanup; by injection Hin as <- _ _.
Qed.

(** X20: the scanner does not set a [launcher.py] aside.  When a
    [launcher.py] found in the source folder (left by a run that
    failed, or the user's own) is the first script and there is no
    executable, it is the target: the stub is written over it and
    names itself as the script to run. *)
Theorem leftover_stub_becomes_target (w : World) (l : list string) :
  let r := convert_app env w in
  let src := strip (source_var (tk w)) in
  In (Progress 0) (new_events w r.2) →
  Fs.listdir (fs w) src = Ok l →
  Forall (λ f, is_exe f = false) l →
  first_match is_py l "launcher.py" →
  In (Log ("Found Python file: " +:+ launcher_path src)) (new_events w r.2) ∧
  ∀ p text ok, In (WriteFile p text ok) (new_ops w r.2) →
    p = launcher_path src ∧ text = Launcher.source true "launcher.py".
Proof.
  cbv zeta. intros Hp Hl He Hf.
  pose proof (scanner_reports env w l Hp Hl) as Hr. cbv zeta in Hr.
  rewrite (select_py _ _ _ He Hf) in Hr. destruct Hr as [Hlog Htext].
  split; [exact Hlog|]. intros p text ok Hin. split.
  - by apply (written_paths w p text ok).
  - rewrite (Htext p text ok Hin). cbn [fst snd].
    by rewrite basename_join.
Qed.

(** X21: the worker leaves the form to the poll.  A run changes neither
    the two paths, the window-mode box, the running flag, the button,
    the progress bar nor the dialogs: all of that goes through the
    queue.  What it does to the widgets itself is the provisioner's:
    console lines and, after an install, the timer; with the bundler
    installed that is the one line of the check. *)
Theorem worker_leaves_the_form (w : World) :
  let r := convert_app env w in
  source_var (tk r.2) = source_var (tk w) ∧
  output_var (tk r.2) = output_var (tk w) ∧
  window_var (tk r.2) = window_var (tk w) ∧
  is_converting (tk r.2) = is_converting (tk w) ∧
  button_enabled (tk r.2) = button_enabled (tk w) ∧
  progress_var (tk r.2) = progress_var (tk w) ∧
  dialogs (tk r.2) = dialogs (tk w) ∧
  (Fs.exists_ (fs w) (pyinstaller_path env) = true →
   console (tk r.2) = console (tk w) ++ ["Checking dependencies..."] ∧
   timers (tk r.2) = timers (tk w)).
Proof.
  cbv zeta. destruct (convert_app env w) as [c w'] eqn:H.
  split_world w. run_pipeline_by provision_detail clean_up_spec H.
  all: do 7 (split; [reflexivity|]); intros Hb.
  all: match goal with
       | Hx : _ = true → _ ∧ _ |- _ => destruct (Hx Hb) as [-> ->]
       end.
  all: by rewrite app_nil_r.
Qed.

End Widgets.

(** * More runs on the small disk *)

Section MoreRuns.
Import PyStr OsPath Examples Scenes.

Ltac pick := repeat first [ reflexivity | left; reflexivity | right ].

Lemma check_queue_stops_at_done_witness :
  queue w_finished =
    [Log "Creating launcher script..."; Progress 40] ++ Done :: [Done] ∧
  (check_queue w_finished).1 = Returned tt ∧
  queue (check_queue w_finished).2 = [Done] ∧
  is_converting (tk (check_queue w_finished).2) = false ∧
  button_enabled (tk (check_queue w_finished).2) = true.
Proof.
  assert (queue w_finished =
          [Log "Creating launcher script..."; Progress 40] ++ Done :: [Done])
    as Hq by reflexivity.
  assert (Forall (λ e, is_done e = false)
            [Log "Creating launcher script..."; Progress 40]) as Hpre
    by (repeat constructor).
  destruct (check_queue_stops_at_done w_finished _ _ Hq Hpre)
    as (H1 & H2 & H3 & H4 & _).
  by repeat split.
Defined.

Lemma check_queue_polls_again_witness :
  is_converting (tk w_running) = true ∧
  queue (check_queue w_running).2 = [] ∧
  timers (tk (check_queue w_running).2) =
    timers (tk w_running) ++ [(100, CheckQueue)].
Proof.
  assert (Forall (λ e, is_done e = false) (queue w_running)) as Hq
    by (repeat constructor).
  destruct (check_queue_polls_again w_running Hq) as (_ & H2 & _ & _ & H5).
  split; [reflexivity|]. split; [exact H2|exact H5].
Defined.

Lemma conversion_cycle_witness :
  is_converting (tk w_app) = false ∧ queue w_app = [] ∧
  is_converting (tk (pressed w_app)) = true ∧
  button_enabled
    (tk (check_queue (convert_app env_ready (pressed w_app)).2).2) = true.
Proof.
  assert (is_converting (tk w_app) = false) as Hc by reflexivity.
  assert (queue w_app = []) as Hq by reflexivity.
  destruct (conversion_cycle env_ready w_app Hc Hq)
    as (H1 & _ & _ & _ & _ & _ & H7 & _).
  split; [exact Hc|]. split; [exact Hq|]. split; [exact H1|exact H7].
Defined.

Lemma init_sets_up_the_folders_witness :
  let w' := (init env_ready desktop w_app).2 in
  isdir (fs w_app) "C:\tool\source" = false ∧
  init env_ready desktop w_app = (Normal tt, w') ∧
  isdir (fs w') "C:\tool\source" = true ∧
  source_var (tk w') = "C:\tool\source".
Proof.
  cbv zeta.
  assert (init env_ready desktop w_app =
          (Normal tt, (init env_ready desktop w_app).2)) as Hi
    by (vm_compute; reflexivity).
  destruct (init_sets_up_the_folders env_ready desktop w_app _ Hi)
    as (Htk & _ & _ & Hs & _).
  split; [vm_compute; reflexivity|]. split; [exact Hi|].
  split; [exact Hs|]. by rewrite Htk.
Defined.

Lemma fresh_start_reaches_scanner_witness :
  let w1 := (init env_ready desktop w_app).2 in
  lstrip (SCRIPT_DIR env_ready) = SCRIPT_DIR env_ready ∧
  Fs.exists_ (fs w1) (pyinstaller_path env_ready) = true ∧
  In (Progress 0) (new_events w1 (convert_app env_ready w1).2).
Proof.
  cbv zeta.
  assert (init env_ready desktop w_app =
          (Normal tt, (init env_ready desktop w_app).2)) as Hi
    by (vm_compute; reflexivity).
  assert (lstrip (SCRIPT_DIR env_ready) = SCRIPT_DIR env_ready) as Hs
    by reflexivity.
  assert (Fs.exists_ (fs (init env_ready desktop w_app).2)
            (pyinstaller_path env_ready) = true) as Hb
    by (vm_compute; reflexivity).
  split; [exact Hs|]. split; [exact Hb|].
  exact (proj1 (fresh_start_reaches_scanner env_ready desktop w_app _
                  Hi Hs Hb)).
Defined.

Lemma failed_extraction_leaves_archive_witness :
  let r := ensure_dependencies env_bad_archive w_fresh in
  In (Extract (temp_archive env_bad_archive)
        (pyinstaller_path env_bad_archive) false) (new_ops w_fresh r.2) ∧
  r.1 = Raised (Exception "BadZipFile: File is not a zip file") ∧
  Fs.exists_ (fs w_fresh) "C:\tmp\pyinstaller.tar.gz" = false ∧
  Fs.exists_ (fs r.2) (temp_archive env_bad_archive) = true.
Proof.
  cbv zeta.
  assert (In (Extract (temp_archive env_bad_archive)
                (pyinstaller_path env_bad_archive) false)
             (new_ops w_fresh
                (ensure_dependencies env_bad_archive w_fresh).2)) as Hin
    by (vm_compute; pick).
  destruct (failed_extraction_leaves_archive env_bad_archive w_fresh Hin)
    as (_ & He & _).
  split; [exact Hin|]. split; [vm_compute; reflexivity|].
  split; [vm_compute; reflexivity|exact He].
Defined.

Lemma install_is_found_next_time_witness :
  let r := ensure_dependencies env_ready w_fresh in
  r.1 = Returned true ∧
  Fs.exists_ (fs w_fresh) (pyinstaller_path env_ready) = false ∧
  (ensure_dependencies env_ready r.2).1 = Returned false.
Proof.
  cbv zeta.
  assert (∀ body members, unzip env_ready body = Ok members → members ≠ [])
    as Hz by (intros body members [= <-]; discriminate).
  assert ((ensure_dependencies env_ready w_fresh).1 = Returned true) as Hr
    by (vm_compute; reflexivity).
  destruct (install_is_found_next_time env_ready w_fresh Hz Hr)
    as (_ & Ha & _).
  split; [exact Hr|]. split; [vm_compute; reflexivity|exact Ha].
Defined.


Lemma deletions_are_confined_witness :
  let r := convert_app env_ready w_app in
  In (Remove "C:\out\launcher.spec" true) (new_ops w_app r.2) ∧
  ((∃ ok, Remove "C:\out\launcher.spec" true =
          Remove (temp_archive env_ready) ok) ∨
   cleanup_target "C:\app" "C:\out" (Remove "C:\out\launcher.spec" true)).
Proof.
  cbv zeta.
  assert (In (Remove "C:\out\launcher.spec" true)
             (new_ops w_app (convert_app env_ready w_app).2)) as Hin
    by (vm_compute; pick).
  split; [exact Hin|].
  exact (deletions_are_confined env_ready w_app _ Hin eq_refl).
Defined.

Lemma temporaries_are_gone_witness :
  let r := convert_app env_ready w_own in
  fs w_own !! resolve "C:\app\launcher.py" = Some (Fs.File "print('mine')") ∧
  In (Progress 100) (new_events w_own r.2) ∧
  Fs.exists_ (fs r.2) "C:\app\launcher.py" = false.
Proof.
  cbv zeta.
  assert (In (Progress 100)
             (new_events w_own (convert_app env_ready w_own).2)) as Hp
    by (vm_compute; pick).
  split; [vm_compute; reflexivity|]. split; [exact Hp|].
  exact (proj1 (temporaries_are_gone env_ready w_own Hp)).
Defined.

Lemma leftover_stub_becomes_target_witness :
  let r := convert_app env_ready w_leftover in
  In (Progress 0) (new_events w_leftover r.2) ∧
  Fs.listdir (fs w_leftover) "C:\app" =
    Ok ["launcher.py"; "app.py"; "data.txt"] ∧
  first_match is_py ["launcher.py"; "app.py"; "data.txt"] "launcher.py" ∧
  In (Log "Found Python file: C:\app\launcher.py")
     (new_events w_leftover r.2) ∧
  In (WriteFile "C:\app\launcher.py" (Launcher.source true "launcher.py")
        true) (new_ops w_leftover r.2).
Proof.
  cbv zeta.
  assert (In (Progress 0)
             (new_events w_leftover (convert_app env_ready w_leftover).2))
    as Hp by (vm_compute; pick).
  assert (Fs.listdir (fs w_leftover) (strip (source_var (tk w_leftover))) =
          Ok ["launcher.py"; "app.py"; "data.txt"]) as Hl
    by (vm_compute; reflexivity).
  assert (Forall (λ f, is_exe f = false) ["launcher.py"; "app.py"; "data.txt"])
    as He by (repeat constructor).
  assert (first_match is_py ["launcher.py"; "app.py"; "data.txt"]
            "launcher.py") as Hf.
  { exists [], ["app.py"; "data.txt"]. split; [reflexivity|].
    split; [reflexivity|]. constructor. }
  destruct (leftover_stub_becomes_target env_ready w_leftover _ Hp Hl He Hf)
    as [Hlog _].
  split; [exact Hp|]. split; [exact Hl|]. split; [exact Hf|].
  split; [exact Hlog|]. vm_compute. pick.
Defined.

End MoreRuns.
